(** * Compliance evaluation engine of [src/application/demo1.py]

    A shallow embedding of the audit pipeline of [demo1.py]:
    [process_audit_for_all_customers], [process_single_customer],
    [process_single_group], [handle_fake_picture_program],
    [handle_normal_program], [determine_overall_status], the rows that
    [save_results_to_database] prepares for its three tables, and the
    summary returned by [analyze_results].

    Modelling choices.
    - A pandas DataFrame is the list of its rows, in row order; a boolean
      mask [df[df[col] == x]] is [filter]; [df.empty] is the empty list;
      [df.iloc[0]] is the head of the list.
    - The numeric columns ([value], [qty], [condition_min_value],
      [group_min_value]) are 64-bit integer columns, as in
      [create_sample_data]; an entry is a [Z], possibly negative, within
      the signed 64-bit range.  [condition_min_value] is read back as a
      [numpy.int64], so the product and the difference computed by
      [handle_normal_program] wrap around at 64 bits ([wrap64]);
      comparisons and the Python counters are exact.
    - A Python [dict] is an insertion-ordered association list with
      distinct keys: [d[k] = v] overwrites in place when [k] is present
      and appends otherwise.
    - The string constants ['PASS'], ['FAIL'] and the reason codes are
      enumerations.  Result dictionaries that lack a key in some branch
      carry an [option] field.  The [message] and [score] entries are
      display strings formatted from the other fields and are left out.
    - [groupby] yields one group per key that occurs in the frame, keys in
      increasing order, rows of a group in frame order (the empty groups
      that pandas can yield for unobserved categories of a categorical
      column are not modelled). *)

From Stdlib Require Import ZArith List String Bool Lia.
From Stdlib Require Import Sorted.
From Stdlib Require OrderedTypeEx.
Import ListNotations.

Local Open Scope string_scope.
Local Open Scope Z_scope.

(** ** Python dictionaries *)

Module PyDict.

Definition dict (V : Type) : Type := list (string * V).

Definition empty {V : Type} : dict V := [].

(** [d[k] = v] *)
Fixpoint set {V : Type} (k : string) (v : V) (d : dict V) : dict V :=
  match d with
  | [] => [(k, v)]
  | (k', v') :: d' =>
      if String.eqb k' k then (k, v) :: d' else (k', v') :: set k v d'
  end.

(** [d.get(k)] *)
Fixpoint get {V : Type} (k : string) (d : dict V) : option V :=
  match d with
  | [] => None
  | (k', v') :: d' => if String.eqb k' k then Some v' else get k d'
  end.

(** [d.keys()], [d.values()], [d.items()] *)
Definition keys {V : Type} (d : dict V) : list string := map fst d.
Definition values {V : Type} (d : dict V) : list V := map snd d.
Definition items {V : Type} (d : dict V) : list (string * V) := d.

End PyDict.

Import PyDict.

(** ** Input tables *)

(** A row of [audit_data] (tableA). *)
Record AuditRow : Type := mkAudit {
  a_group : string;
  a_value : Z;
  a_program_type : string;
  a_audit_date : Z;
  a_customer_id : string
}.

(** A row of [condition_data] (tableB). *)
Record ConditionRow : Type := mkCondition {
  c_group : string;
  condition_min_value : Z;
  condition_point : Z;
  group_min_value : Z;
  c_program_type : string
}.

(** A row of [registration_data] (tableC). *)
Record RegistrationRow : Type := mkRegistration {
  r_program_type : string;
  qty : Z;
  r_customer_id : string
}.

(** A row of [merged_data]: the audit columns followed by the registration
    columns that are not join keys. *)
Record MergedRow : Type := mkMerged {
  m_group : string;
  m_value : Z;
  m_program_type : string;
  m_audit_date : Z;
  m_customer_id : string;
  m_qty : Z
}.

(** ** Results *)

Inductive Status : Type := PASS | FAIL.

Inductive Reason : Type :=
| NO_REGISTRATION
| NO_AUDIT_DATA
| PROCESSED
| NO_CONDITIONS
| NO_CONDITION
| FAKE_PICTURE_DETECTED
| NO_FAKE_PICTURE
| NORMAL_PROCESSING.

Definition Status_eqb (a b : Status) : bool :=
  match a, b with
  | PASS, PASS | FAIL, FAIL => true
  | _, _ => false
  end.

(** The dictionary returned by the two program handlers. *)
Record ProgramResult : Type := mkProgramResult {
  program_type : string;
  pass_status : Status;
  reason : Reason;
  audit_value : Z;
  required_value : option Z;
  registration_qty : option Z;
  pr_condition_min_value : option Z;
  deficit : option Z
}.

(** The dictionary returned by [process_single_group]. *)
Record GroupResult : Type := mkGroupResult {
  group : string;
  group_status : Status;
  group_reason : option Reason;
  passed_programs : option Z;
  required_programs : option Z;
  program_results : dict ProgramResult
}.

(** The dictionary returned by [process_single_customer]. *)
Record CustomerResult : Type := mkCustomerResult {
  customer_id : string;
  overall_status : Status;
  customer_reason : Reason;
  group_results : dict GroupResult
}.

(** The reserved program code of the exception branch. *)
Definition fake_picture : string := "fake_picture".

(** ** pandas operations *)

(** [pd.merge(left, right, on=['customer_id', 'program_type'], how='inner')]:
    every pair of rows that agree on both keys, in the order of the left
    frame. *)
Definition merge (left : list AuditRow) (right : list RegistrationRow)
  : list MergedRow :=
  flat_map
    (fun a =>
       map (fun r =>
              mkMerged (a_group a) (a_value a) (a_program_type a)
                       (a_audit_date a) (a_customer_id a) (qty r))
           (filter (fun r =>
                      String.eqb (r_customer_id r) (a_customer_id a)
                      && String.eqb (r_program_type r) (a_program_type a))
                   right))
    left.

(** Insertion of a key in an increasing list of distinct keys. *)
Fixpoint insert_key (k : string) (ks : list string) : list string :=
  match ks with
  | [] => [k]
  | k' :: ks' =>
      match String.compare k k' with
      | Lt => k :: ks
      | Eq => ks
      | Gt => k' :: insert_key k ks'
      end
  end.

Definition group_keys {A : Type} (key : A -> string) (rows : list A)
  : list string :=
  fold_right (fun r ks => insert_key (key r) ks) [] rows.

(** [df.groupby(col)], iterated: the pairs (key, sub-frame). *)
Definition groupby {A : Type} (key : A -> string) (rows : list A)
  : list (string * list A) :=
  map (fun k => (k, filter (fun r => String.eqb (key r) k) rows))
      (group_keys key rows).

(** ** Program evaluation *)

(** [handle_fake_picture_program(audit_value)] *)
Definition handle_fake_picture_program (audit_value : Z) : ProgramResult :=
  if audit_value >? 0 then
    mkProgramResult fake_picture FAIL FAKE_PICTURE_DETECTED audit_value
                    None None None None
  else
    mkProgramResult fake_picture PASS NO_FAKE_PICTURE audit_value
                    None None None None.

(** Signed 64-bit integers: the range of [numpy.int64] and the result of
    an operation that overflows it. *)
Definition int64_min : Z := -9223372036854775808.
Definition int64_max : Z := 9223372036854775807.

Definition in_int64 (z : Z) : Prop := int64_min <= z <= int64_max.

Definition wrap64 (z : Z) : Z :=
  (z - int64_min) mod 18446744073709551616 + int64_min.

(** [handle_normal_program(program_type, audit_value, registration_qty,
    group_conditions)] *)
Definition handle_normal_program (program_type : string) (audit_value : Z)
    (registration_qty : Z) (group_conditions : list ConditionRow)
  : ProgramResult :=
  let program_condition :=
    filter (fun c => String.eqb (c_program_type c) program_type)
           group_conditions in
  match program_condition with
  | [] =>
      mkProgramResult program_type FAIL NO_CONDITION audit_value
                      (Some 0) None None None
  | first :: _ =>
      let condition_min_value := condition_min_value first in
      let required_value := wrap64 (condition_min_value * registration_qty) in
      let pass_status :=
        if audit_value >=? required_value then PASS else FAIL in
      mkProgramResult program_type pass_status NORMAL_PROCESSING audit_value
                      (Some required_value) (Some registration_qty)
                      (Some condition_min_value)
                      (Some (Z.max 0 (wrap64 (required_value - audit_value))))
  end.

(** ** Group evaluation *)

(** The body of the loop over [group_data.iterrows()]: the verdict of one
    matched row. *)
Definition program_result_of_row (program_row : MergedRow)
    (group_conditions : list ConditionRow) : ProgramResult :=
  let program_type := m_program_type program_row in
  let audit_value := m_value program_row in
  let registration_qty := m_qty program_row in
  if String.eqb program_type fake_picture then
    handle_fake_picture_program audit_value
  else
    handle_normal_program program_type audit_value registration_qty
                          group_conditions.

(** One iteration: store the verdict under its program type and count it
    when it passes. *)
Definition group_step (group_conditions : list ConditionRow)
    (acc : dict ProgramResult * Z) (program_row : MergedRow)
  : dict ProgramResult * Z :=
  let program_result := program_result_of_row program_row group_conditions in
  (set (m_program_type program_row) program_result (fst acc),
   match pass_status program_result with
   | PASS => snd acc + 1
   | FAIL => snd acc
   end).

Definition group_loop (group_conditions : list ConditionRow)
    (group_data : list MergedRow) : dict ProgramResult * Z :=
  fold_left (group_step group_conditions) group_data (empty, 0).

(** [process_single_group(group_name, group_data, condition_data)] *)
Definition process_single_group (group_name : string)
    (group_data : list MergedRow) (condition_data : list ConditionRow)
  : GroupResult :=
  let group_conditions :=
    filter (fun c => String.eqb (c_group c) group_name) condition_data in
  match group_conditions with
  | [] => mkGroupResult group_name FAIL (Some NO_CONDITIONS) None None empty
  | first :: _ =>
      let '(program_results, passed_programs) :=
        group_loop group_conditions group_data in
      let group_min_value := group_min_value first in
      let group_status :=
        if passed_programs >=? group_min_value then PASS else FAIL in
      mkGroupResult group_name group_status None (Some passed_programs)
                    (Some group_min_value) program_results
  end.

(** ** Customer evaluation *)

(** [determine_overall_status(group_results)] *)
Fixpoint determine_overall_status (group_results : dict GroupResult)
  : Status :=
  match group_results with
  | [] => PASS
  | (_, group_result) :: rest =>
      match group_status group_result with
      | FAIL => FAIL
      | PASS => determine_overall_status rest
      end
  end.

(** The loop of [process_single_customer] over [merged_data.groupby('group')]. *)
Definition customer_groups_loop (merged_data : list MergedRow)
    (condition_data : list ConditionRow) : dict GroupResult :=
  fold_left
    (fun group_results g =>
       set (fst g) (process_single_group (fst g) (snd g) condition_data)
           group_results)
    (groupby m_group merged_data) empty.

(** [process_single_customer(customer_id, customer_audit, condition_data,
    registration_data)] *)
Definition process_single_customer (customer_id : string)
    (customer_audit : list AuditRow) (condition_data : list ConditionRow)
    (registration_data : list RegistrationRow) : CustomerResult :=
  let customer_registration :=
    filter (fun r => String.eqb (r_customer_id r) customer_id)
           registration_data in
  match customer_registration with
  | [] => mkCustomerResult customer_id FAIL NO_REGISTRATION empty
  | _ :: _ =>
      let merged_data := merge customer_audit customer_registration in
      match merged_data with
      | [] => mkCustomerResult customer_id FAIL NO_AUDIT_DATA empty
      | _ :: _ =>
          let group_results := customer_groups_loop merged_data condition_data in
          let overall_status := determine_overall_status group_results in
          mkCustomerResult customer_id overall_status PROCESSED group_results
      end
  end.

(** ** Batch run *)

(** [process_audit_for_all_customers(audit_data, condition_data,
    registration_data)] *)
Definition process_audit_for_all_customers (audit_data : list AuditRow)
    (condition_data : list ConditionRow)
    (registration_data : list RegistrationRow) : dict CustomerResult :=
  fold_left
    (fun all_results g =>
       set (fst g)
           (process_single_customer (fst g) (snd g) condition_data
                                    registration_data)
           all_results)
    (groupby a_customer_id audit_data) empty.

(** ** Statistics of [save_results_to_database] *)

Definition count_pass {A : Type} (status : A -> Status) (l : list A) : Z :=
  Z.of_nat (List.length (filter (fun x => Status_eqb (status x) PASS) l)).

(** [fake_picture_detected]: the [any(...)] over all program results of all
    group results. *)
Definition fake_picture_detected (result : CustomerResult) : bool :=
  existsb
    (fun gr =>
       existsb
         (fun pr =>
            String.eqb (program_type pr) fake_picture
            && Status_eqb (pass_status pr) FAIL)
         (values (program_results gr)))
    (values (group_results result)).

(** The tuple appended to [customer_data]. *)
Record CustomerDataRow : Type := mkCustomerDataRow {
  cd_customer_id : string;
  cd_overall_status : Status;
  cd_reason : Reason;
  cd_total_groups : Z;
  cd_passed_groups : Z;
  cd_total_programs : Z;
  cd_passed_programs : Z;
  cd_fake_picture_detected : Z
}.

Definition customer_data_row (customer_id : string) (result : CustomerResult)
  : CustomerDataRow :=
  let total_groups := Z.of_nat (List.length (group_results result)) in
  let passed_groups := count_pass group_status (values (group_results result)) in
  let total_programs :=
    fold_right Z.add 0
      (map (fun gr => Z.of_nat (List.length (program_results gr)))
           (values (group_results result))) in
  let passed_programs :=
    fold_right Z.add 0
      (map (fun gr => count_pass pass_status (values (program_results gr)))
           (values (group_results result))) in
  mkCustomerDataRow customer_id (overall_status result)
                    (customer_reason result) total_groups passed_groups
                    total_programs passed_programs
                    (if fake_picture_detected result then 1 else 0).

(** ** Rows prepared by [save_results_to_database] *)

(** The tuple appended to [group_data] (the [score] string is left out). *)
Record GroupDataRow : Type := mkGroupDataRow {
  gd_customer_id : string;
  gd_group_name : string;
  gd_group_status : Status;
  gd_passed_programs : Z;
  gd_required_programs : Z
}.

(** The tuple appended to [program_data] (the [score] and [message]
    strings are left out). *)
Record ProgramDataRow : Type := mkProgramDataRow {
  pd_customer_id : string;
  pd_group_name : string;
  pd_program_type : string;
  pd_pass_status : Status;
  pd_reason : Reason;
  pd_audit_value : Z;
  pd_required_value : Z;
  pd_registration_qty : Z;
  pd_condition_min_value : Z;
  pd_deficit : Z
}.

(** [d.get(key, default)] on an entry that may be missing. *)
Definition get_default (entry : option Z) (default : Z) : Z :=
  match entry with
  | Some v => v
  | None => default
  end.

(** The group tuple reads [group_result['passed_programs']] and
    [group_result['required_programs']] by subscript: a missing key raises
    [KeyError], which is [None] here. *)
Definition group_data_row (customer_id group_name : string)
    (group_result : GroupResult) : option GroupDataRow :=
  match passed_programs group_result with
  | None => None
  | Some passed =>
      match required_programs group_result with
      | None => None
      | Some required =>
          Some (mkGroupDataRow customer_id group_name
                               (group_status group_result) passed required)
      end
  end.

Definition program_data_row (customer_id group_name program_type : string)
    (program_result : ProgramResult) : ProgramDataRow :=
  mkProgramDataRow customer_id group_name program_type
    (pass_status program_result) (reason program_result)
    (audit_value program_result)
    (get_default (required_value program_result) 0)
    (get_default (registration_qty program_result) 0)
    (get_default (pr_condition_min_value program_result) 0)
    (get_default (deficit program_result) 0).

(** The loop over [result['group_results'].items()] for one customer. *)
Fixpoint save_groups (customer_id : string)
    (groups : list (string * GroupResult))
  : option (list GroupDataRow * list ProgramDataRow) :=
  match groups with
  | [] => Some ([], [])
  | (group_name, group_result) :: rest =>
      match group_data_row customer_id group_name group_result with
      | None => None
      | Some row =>
          let programs :=
            map (fun p => program_data_row customer_id group_name
                                           (fst p) (snd p))
                (items (program_results group_result)) in
          match save_groups customer_id rest with
          | None => None
          | Some (group_data, program_data) =>
              Some (row :: group_data, (programs ++ program_data)%list)
          end
      end
  end.

(** [save_results_to_database(all_results, conn)]: the three parameter
    lists handed to [executemany], in insertion order, or [None] when the
    preparation raises; the function then rolls back and re-raises, and
    nothing is written. *)
Fixpoint save_results_to_database (all_results : list (string * CustomerResult))
  : option (list CustomerDataRow * list GroupDataRow * list ProgramDataRow) :=
  match all_results with
  | [] => Some ([], [], [])
  | (customer_id, result) :: rest =>
      match save_groups customer_id (items (group_results result)) with
      | None => None
      | Some (groups, programs) =>
          match save_results_to_database rest with
          | None => None
          | Some (customer_data, group_data, program_data) =>
              Some (customer_data_row customer_id result :: customer_data,
                    (groups ++ group_data)%list,
                    (programs ++ program_data)%list)
          end
      end
  end.

(** ** Summary of [analyze_results] *)

Record Analysis : Type := mkAnalysis {
  total_customers : Z;
  passed_customers : Z;
  failed_customers : Z;
  fake_picture_fails : Z;
  fake_picture_passes : Z
}.

(** The body of the innermost loop: the pair of counters
    ([fake_picture_fails], [fake_picture_passes]). *)
Definition count_fake_picture (acc : Z * Z) (program_result : ProgramResult)
  : Z * Z :=
  if String.eqb (program_type program_result) fake_picture then
    match pass_status program_result with
    | FAIL => (fst acc + 1, snd acc)
    | PASS => (fst acc, snd acc + 1)
    end
  else acc.

Definition fake_picture_counts (all_results : dict CustomerResult) : Z * Z :=
  fold_left
    (fun acc result =>
       fold_left
         (fun acc group_result =>
            fold_left count_fake_picture
                      (values (program_results group_result)) acc)
         (values (group_results result)) acc)
    (values all_results) (0, 0).

(** [analyze_results(all_results)]: the returned dictionary, or [None] for
    the [ZeroDivisionError] of the success-rate line
    [passed_customers/total_customers*100] when there is no customer. *)
Definition analyze_results (all_results : dict CustomerResult)
  : option Analysis :=
  let total_customers := Z.of_nat (List.length all_results) in
  let passed_customers := count_pass overall_status (values all_results) in
  let failed_customers := total_customers - passed_customers in
  if total_customers =? 0 then None
  else
    let counts := fake_picture_counts all_results in
    Some (mkAnalysis total_customers passed_customers failed_customers
                     (fst counts) (snd counts)).

(** ** Vocabulary for the statements below *)

(** All stored program verdicts of a customer, group by group. *)
Definition program_verdicts (result : CustomerResult) : list ProgramResult :=
  flat_map (fun gr => values (program_results gr))
           (values (group_results result)).

(** The test of [fake_picture_detected] and of [analyze_results] on one
    program verdict. *)
Definition failed_sentinel (pr : ProgramResult) : bool :=
  String.eqb (program_type pr) fake_picture
  && Status_eqb (pass_status pr) FAIL.

Definition passed_sentinel (pr : ProgramResult) : bool :=
  String.eqb (program_type pr) fake_picture
  && Status_eqb (pass_status pr) PASS.

Definition sum_Z (l : list Z) : Z := fold_right Z.add 0 l.

(** ** Sample period data *)

Module Samples.

Definition cust1 : string := "CUST_000001".
Definition cust2 : string := "CUST_000002".

(** GROUP_A asks for one passing program out of its rules. *)
Definition conditions : list ConditionRow :=
  [ mkCondition "GROUP_A" 40 5 1 "PROG_001";
    mkCondition "GROUP_A" 10 2 1 "PROG_002";
    mkCondition "GROUP_B" 3 1 2 "PROG_003" ].

(** Scenario A and B of the threshold branch: two registered units. *)
Definition row_A : MergedRow := mkMerged "GROUP_A" 90 "PROG_001" 0 cust1 2.
Definition row_B : MergedRow := mkMerged "GROUP_A" 70 "PROG_001" 0 cust1 2.
Definition row_no_rule : MergedRow := mkMerged "GROUP_A" 70 "PROG_099" 0 cust1 2.

(** A customer registered for the sentinel and for PROG_001, audited on
    both in GROUP_A, with three fake pictures found. *)
Definition veto_registrations : list RegistrationRow :=
  [ mkRegistration fake_picture 1 cust1;
    mkRegistration "PROG_001" 1 cust1 ].
Definition veto_audit : list AuditRow :=
  [ mkAudit "GROUP_A" 3 fake_picture 0 cust1;
    mkAudit "GROUP_A" 50 "PROG_001" 1 cust1 ].

(** The same customer registered for the sentinel only. *)
Definition sentinel_only_registrations : list RegistrationRow :=
  [ mkRegistration fake_picture 1 cust1 ].

(** The same customer registered for PROG_001 only. *)
Definition plain_registrations : list RegistrationRow :=
  [ mkRegistration "PROG_001" 1 cust1 ].

(** The same audit with only PROG_002 registered, and audited below its
    threshold. *)
Definition clean_registrations : list RegistrationRow :=
  [ mkRegistration "PROG_002" 1 cust1 ].
Definition clean_audit : list AuditRow :=
  [ mkAudit "GROUP_A" 3 fake_picture 0 cust1;
    mkAudit "GROUP_A" 4 "PROG_002" 1 cust1 ].

(** A customer registered for program [X] with no audit row anywhere;
    the only audit rows of the period belong to another customer. *)
Definition lonely_registrations : list RegistrationRow :=
  [ mkRegistration "X" 1 cust1;
    mkRegistration "PROG_001" 1 cust2 ].
Definition lonely_audit : list AuditRow :=
  [ mkAudit "GROUP_A" 50 "PROG_001" 0 cust2 ].

(** Registrations exist, audit rows exist, none matches. *)
Definition unmatched_registrations : list RegistrationRow :=
  [ mkRegistration "X" 1 cust1 ].
Definition unmatched_audit : list AuditRow :=
  [ mkAudit "GROUP_A" 50 "PROG_001" 0 cust1 ].


End Samples.

(** * Properties *)

(** ** Dictionaries *)

Section DictFacts.
Context {V : Type}.
Implicit Types (d : dict V) (k : string) (v : V).

Lemma get_set_same k v d : get k (set k v d) = Some v.
Proof.
  induction d as [|[k' v'] d IH]; simpl.
  - now rewrite String.eqb_refl.
  - destruct (String.eqb k' k) eqn:E; simpl.
    + now rewrite String.eqb_refl.
    + now rewrite E.
Qed.

Lemma get_set_other k k0 v d : k <> k0 -> get k0 (set k v d) = get k0 d.
Proof.
  intros Hne. induction d as [|[k' v'] d IH]; simpl.
  - apply String.eqb_neq in Hne. now rewrite Hne.
  - destruct (String.eqb k' k) eqn:E; simpl.
    + apply String.eqb_eq in E. subst k'.
      apply String.eqb_neq in Hne. now rewrite Hne.
    + now rewrite IH.
Qed.

Lemma in_set_inv k v d k0 v0 :
  In (k0, v0) (set k v d) -> (k0 = k /\ v0 = v) \/ In (k0, v0) d.
Proof.
  induction d as [|[k' v'] d IH]; simpl.
  - intros [H|[]]. inversion H. now left.
  - destruct (String.eqb k' k) eqn:E; simpl.
    + intros [H|H]; [inversion H; now left | now right; right].
    + intros [H|H]; [now right; left|].
      destruct (IH H) as [H'|H']; [now left | now right; right].
Qed.

Lemma in_set_same k v d : In (k, v) (set k v d).
Proof.
  induction d as [|[k' v'] d IH]; simpl.
  - now left.
  - destruct (String.eqb k' k); simpl; [now left | now right].
Qed.

Lemma in_set_other k v d k0 v0 :
  k0 <> k -> In (k0, v0) d -> In (k0, v0) (set k v d).
Proof.
  intros Hne. induction d as [|[k' v'] d IH]; simpl.
  - intros [].
  - intros [H|H].
    + inversion H; subst k' v'.
      apply String.eqb_neq in Hne. rewrite Hne. now left.
    + destruct (String.eqb k' k); simpl; [now right | right; now apply IH].
Qed.

Lemma get_some_in k v d : get k d = Some v -> In (k, v) d.
Proof.
  induction d as [|[k' v'] d IH]; simpl; [discriminate|].
  destruct (String.eqb k' k) eqn:E.
  - apply String.eqb_eq in E. intros H. inversion H. subst. now left.
  - intros H. right. now apply IH.
Qed.

Lemma get_none_not_in k d : get k d = None -> forall v, ~ In (k, v) d.
Proof.
  induction d as [|[k' v'] d IH]; simpl; [intros _ v []|].
  destruct (String.eqb k' k) eqn:E; [discriminate|].
  intros H v [H'|H'].
  - inversion H'. subst. now rewrite String.eqb_refl in E.
  - now apply (IH H v).
Qed.

Lemma in_get_some k v d : In (k, v) d -> exists v', get k d = Some v'.
Proof.
  intros H. destruct (get k d) eqn:E; [now eexists|].
  now destruct (get_none_not_in _ _ E v).
Qed.

(** Appending a fresh key. *)
Lemma set_fresh k v d : ~ In k (keys d) -> set k v d = (d ++ [(k, v)])%list.
Proof.
  induction d as [|[k' v'] d IH]; simpl; [reflexivity|].
  intros Hn. destruct (String.eqb k' k) eqn:E.
  - apply String.eqb_eq in E. subst. exfalso. apply Hn. now left.
  - f_equal. apply IH. intros H. apply Hn. now right.
Qed.

End DictFacts.

(** ** Lists *)

Lemma filter_nil_iff {A : Type} (f : A -> bool) (l : list A) :
  filter f l = [] <-> forall x, In x l -> f x = false.
Proof.
  induction l as [|x l IH]; simpl.
  - split; [intros _ y [] | reflexivity].
  - destruct (f x) eqn:E; split.
    + discriminate.
    + intros H. specialize (H x (or_introl eq_refl)). congruence.
    + intros H y [<-|Hy]; [assumption | now apply IH].
    + intros H. apply IH. intros y Hy. apply H. now right.
Qed.

Lemma filter_head_in {A : Type} (f : A -> bool) (l : list A) x rest :
  filter f l = x :: rest -> In x l /\ f x = true.
Proof.
  intros H. apply filter_In. rewrite H. now left.
Qed.

Lemma merge_nil_iff (left : list AuditRow) (right : list RegistrationRow) :
  merge left right = [] <->
  forall a r, In a left -> In r right ->
    ~ (r_customer_id r = a_customer_id a /\ r_program_type r = a_program_type a).
Proof.
  unfold merge. induction left as [|a left IH]; simpl.
  - split; [intros _ a r [] | reflexivity].
  - split.
    + intros H. apply app_eq_nil in H. destruct H as [H1 H2].
      apply map_eq_nil in H1. rewrite filter_nil_iff in H1.
      intros a' r [<-|Ha] Hr [E1 E2].
      * specialize (H1 r Hr). rewrite E1, E2, !String.eqb_refl in H1.
        discriminate.
      * now apply (proj1 IH H2 a' r Ha Hr).
    + intros H.
      replace (filter _ right) with (@nil RegistrationRow).
      * simpl. apply IH. intros a' r Ha Hr. apply H; [now right | assumption].
      * symmetry. apply filter_nil_iff. intros r Hr.
        apply andb_false_iff.
        destruct (String.eqb (r_customer_id r) (a_customer_id a)) eqn:E1;
          [right | now left].
        apply String.eqb_neq. intros E2. apply String.eqb_eq in E1.
        apply (H a r (or_introl eq_refl) Hr). now split.
Qed.

(** ** Program evaluation *)

Lemma status_cases (s : Status) : s = PASS \/ s = FAIL.
Proof. destruct s; [now left | now right]. Qed.

Lemma program_type_of_row row group_conditions :
  program_type (program_result_of_row row group_conditions) = m_program_type row.
Proof.
  unfold program_result_of_row.
  destruct (String.eqb (m_program_type row) fake_picture) eqn:E.
  - apply String.eqb_eq in E. rewrite E.
    unfold handle_fake_picture_program. now destruct (m_value row >? 0).
  - unfold handle_normal_program.
    now destruct (filter _ group_conditions).
Qed.

Lemma normal_row row group_conditions :
  m_program_type row <> fake_picture ->
  program_result_of_row row group_conditions =
  handle_normal_program (m_program_type row) (m_value row) (m_qty row)
                        group_conditions.
Proof.
  intros H. unfold program_result_of_row.
  apply String.eqb_neq in H. now rewrite H.
Qed.

Lemma sentinel_row row group_conditions :
  m_program_type row = fake_picture ->
  program_result_of_row row group_conditions =
  handle_fake_picture_program (m_value row).
Proof.
  intros H. unfold program_result_of_row.
  now rewrite H, String.eqb_refl.
Qed.

(** Within the signed 64-bit range nothing wraps. *)
Lemma wrap64_exact z : in_int64 z -> wrap64 z = z.
Proof.
  unfold in_int64, wrap64, int64_min, int64_max. intros H.
  rewrite Z.mod_small; lia.
Qed.

Lemma wrap64_in_range z : in_int64 (wrap64 z).
Proof.
  unfold in_int64, wrap64, int64_min, int64_max.
  pose proof (Z.mod_pos_bound (z - -9223372036854775808)
                18446744073709551616 ltac:(lia)).
  lia.
Qed.

(** C1, as stated, fails when the 64-bit arithmetic overflows.  With a
    rule minimum of 2^62 and a quantity of 4 the product wraps to 0: the
    required value is 0 and a measured value of 0 passes, although it is
    below minimum * quantity.  With a required value of 2^63 - 1 and a
    measured value of -1 the verdict is FAIL but the difference wraps to
    a negative number, so the deficit is 0. *)
Lemma threshold_arithmetic_wraps :
  let rule := mkCondition "GROUP_A" 4611686018427387904 5 1 "PROG_001" in
  let row := mkMerged "GROUP_A" 0 "PROG_001" 0 Samples.cust1 4 in
  let r := program_result_of_row row [rule] in
  let rule' := mkCondition "GROUP_A" 9223372036854775807 5 1 "PROG_001" in
  let row' := mkMerged "GROUP_A" (-1) "PROG_001" 0 Samples.cust1 1 in
  let r' := program_result_of_row row' [rule'] in
  (m_program_type row <> fake_picture /\
   c_program_type rule = m_program_type row /\
   m_value row < condition_min_value rule * m_qty row /\
   pass_status r = PASS /\
   required_value r = Some 0 /\
   required_value r <> Some (condition_min_value rule * m_qty row))
  /\
  (m_program_type row' <> fake_picture /\
   c_program_type rule' = m_program_type row' /\
   m_value row' < condition_min_value rule' * m_qty row' /\
   pass_status r' = FAIL /\
   deficit r' = Some 0 /\
   deficit r' <> Some (condition_min_value rule' * m_qty row' - m_value row')).
Proof.
  vm_compute. repeat split; try discriminate; reflexivity.
Qed.

(** C1, amended.  Threshold branch.  For a matched row whose program is
    not the sentinel, evaluated in the group [group_name]: when the rule
    table has a rule for (group, program), the first such rule [rule]
    decides.  Provided [condition_min_value rule * qty] fits in a signed
    64-bit integer, it is the required value, and the verdict is PASS when
    the measured value reaches it and FAIL when it does not; provided the
    difference [required_value - value] fits as well, the deficit is 0 on
    PASS and [required_value - value], a non-negative number, on FAIL.
    When the table has no rule for (group, program) the verdict is FAIL
    with reason NO_CONDITION and required value 0. *)
Theorem threshold_branch_verdict
    (group_name : string) (row : MergedRow)
    (condition_data : list ConditionRow) :
  m_program_type row <> fake_picture ->
  let group_conditions :=
    filter (fun c => String.eqb (c_group c) group_name) condition_data in
  let r := program_result_of_row row group_conditions in
  ((exists rule, In rule condition_data /\ c_group rule = group_name /\
                 c_program_type rule = m_program_type row) ->
   exists rule,
     hd_error (filter (fun c => String.eqb (c_program_type c)
                                           (m_program_type row))
                      group_conditions) = Some rule /\
     In rule condition_data /\ c_group rule = group_name /\
     c_program_type rule = m_program_type row /\
     let required := condition_min_value rule * m_qty row in
     (in_int64 required ->
      required_value r = Some required /\
      (required <= m_value row -> pass_status r = PASS) /\
      (m_value row < required -> pass_status r = FAIL) /\
      (in_int64 (required - m_value row) ->
       (required <= m_value row -> deficit r = Some 0) /\
       (m_value row < required ->
        deficit r = Some (required - m_value row) /\
        0 <= required - m_value row))))
  /\
  ((forall rule, In rule condition_data -> c_group rule = group_name ->
                 c_program_type rule <> m_program_type row) ->
   pass_status r = FAIL /\ reason r = NO_CONDITION /\
   required_value r = Some 0).
Proof.
  intros Hns group_conditions r. subst r.
  rewrite (normal_row _ _ Hns). unfold handle_normal_program.
  split.
  - intros [rule0 (Hin0 & Hg0 & Hp0)].
    destruct (filter (fun c => String.eqb (c_program_type c)
                                          (m_program_type row))
                     group_conditions) as [|rule rest] eqn:E.
    + exfalso. rewrite filter_nil_iff in E.
      assert (Hin : In rule0 group_conditions).
      { apply filter_In. split; [assumption|].
        rewrite Hg0. apply String.eqb_refl. }
      specialize (E rule0 Hin). rewrite Hp0, String.eqb_refl in E.
      discriminate.
    + exists rule. apply filter_head_in in E. destruct E as [Hin Hp].
      apply filter_In in Hin. destruct Hin as [Hin Hg].
      apply String.eqb_eq in Hp, Hg. cbn [hd_error].
      split; [reflexivity | split; [assumption | split; [assumption|]]].
      split; [assumption|]. cbn zeta. intros Hprod.
      cbn [required_value pass_status deficit].
      rewrite (wrap64_exact _ Hprod), Z.geb_leb.
      split; [reflexivity | split; [|split]].
      * intros H. apply Z.leb_le in H. now rewrite H.
      * intros H. apply Z.leb_gt in H. now rewrite H.
      * intros Hdiff. rewrite (wrap64_exact _ Hdiff). split.
        -- intros H. f_equal. lia.
        -- intros H. split; [f_equal|]; lia.
  - intros Hnone.
    replace (filter (fun c => String.eqb (c_program_type c)
                                         (m_program_type row))
                    group_conditions) with (@nil ConditionRow); [now cbn|].
    symmetry. apply filter_nil_iff. intros c Hc.
    apply filter_In in Hc. destruct Hc as [Hin Hg].
    apply String.eqb_eq in Hg. apply String.eqb_neq. now apply Hnone.
Qed.

(** Scenario A and B and the missing rule, through the theorem. *)
Lemma threshold_branch_verdict_witness :
  pass_status (program_result_of_row Samples.row_A
     (filter (fun c => String.eqb (c_group c) "GROUP_A") Samples.conditions))
  = PASS
  /\ deficit (program_result_of_row Samples.row_B
     (filter (fun c => String.eqb (c_group c) "GROUP_A") Samples.conditions))
  = Some 10
  /\ reason (program_result_of_row Samples.row_no_rule
     (filter (fun c => String.eqb (c_group c) "GROUP_A") Samples.conditions))
  = NO_CONDITION.
Proof.
  assert (Hns : forall p, String.eqb p fake_picture = false ->
                          p <> fake_picture).
  { intros p. apply String.eqb_neq. }
  assert (Hr : forall z, (int64_min <=? z) && (z <=? int64_max) = true ->
                         in_int64 z).
  { intros z Hz. apply andb_true_iff in Hz. destruct Hz as [H1 H2].
    apply Z.leb_le in H1, H2. now split. }
  split; [|split].
  - destruct (threshold_branch_verdict "GROUP_A" Samples.row_A
                Samples.conditions
                (Hns (m_program_type Samples.row_A) eq_refl)) as [H _].
    destruct H as [rule (Hhd & _ & _ & _ & Hreq)].
    + eexists. split; [left; reflexivity | split; reflexivity].
    + cbn in Hhd. inversion Hhd; subst rule.
      destruct (Hreq (Hr 80 eq_refl)) as (_ & Hpass & _).
      apply Hpass. cbn. lia.
  - destruct (threshold_branch_verdict "GROUP_A" Samples.row_B
                Samples.conditions
                (Hns (m_program_type Samples.row_B) eq_refl)) as [H _].
    destruct H as [rule (Hhd & _ & _ & _ & Hreq)].
    + eexists. split; [left; reflexivity | split; reflexivity].
    + cbn in Hhd. inversion Hhd; subst rule.
      destruct (Hreq (Hr 80 eq_refl)) as (_ & _ & _ & Hdef).
      destruct (Hdef (Hr 10 eq_refl)) as [_ Hfail].
      destruct Hfail as [Hd _]; [cbn; lia | exact Hd].
  - destruct (threshold_branch_verdict "GROUP_A" Samples.row_no_rule
                Samples.conditions
                (Hns (m_program_type Samples.row_no_rule) eq_refl)) as [_ H].
    apply H. intros rule Hin Hg.
    cbn in Hin. destruct Hin as [<-|[<-|[<-|[]]]]; cbn; discriminate.
Defined.

(** ** Exception branch *)

(** C3, as stated, fails on a negative measured value: the sentinel
    verdict for -1 is PASS although the value is not 0. *)
Lemma sentinel_pass_on_negative_value :
  let row := mkMerged "GROUP_A" (-1) fake_picture 0 Samples.cust1 1 in
  m_program_type row = fake_picture /\
  pass_status (program_result_of_row row Samples.conditions) = PASS /\
  m_value row <> 0.
Proof. cbn. repeat split. discriminate. Qed.

(** C3, amended.  For a matched row of the sentinel program the verdict is
    FAIL iff the measured value is > 0 and PASS iff it is <= 0, and the
    whole verdict is determined by the measured value: any other sentinel
    row with the same value gets the same verdict, whatever its quantity
    and whatever rules are passed. *)
Theorem sentinel_verdict_by_value_alone
    (row : MergedRow) (group_conditions : list ConditionRow) :
  m_program_type row = fake_picture ->
  let r := program_result_of_row row group_conditions in
  (pass_status r = FAIL <-> 0 < m_value row) /\
  (pass_status r = PASS <-> m_value row <= 0) /\
  (forall row' group_conditions',
      m_program_type row' = fake_picture ->
      m_value row' = m_value row ->
      program_result_of_row row' group_conditions' = r).
Proof.
  intros Hs r. subst r. rewrite (sentinel_row _ _ Hs).
  unfold handle_fake_picture_program. rewrite Z.gtb_ltb.
  split; [|split].
  - destruct (0 <? m_value row) eqn:E; cbn.
    + apply Z.ltb_lt in E. now split.
    + apply Z.ltb_ge in E. split; [discriminate | lia].
  - destruct (0 <? m_value row) eqn:E; cbn.
    + apply Z.ltb_lt in E. split; [discriminate | lia].
    + apply Z.ltb_ge in E. now split.
  - intros row' conds' Hs' Hv. rewrite (sentinel_row _ _ Hs').
    unfold handle_fake_picture_program. now rewrite Hv, Z.gtb_ltb.
Qed.

Lemma sentinel_verdict_by_value_alone_witness :
  pass_status
    (program_result_of_row
       (mkMerged "GROUP_A" 3 fake_picture 0 Samples.cust1 1)
       Samples.conditions) = FAIL
  /\ program_result_of_row
       (mkMerged "GROUP_B" 3 fake_picture 7 Samples.cust2 5) [] =
     program_result_of_row
       (mkMerged "GROUP_A" 3 fake_picture 0 Samples.cust1 1)
       Samples.conditions.
Proof.
  destruct (sentinel_verdict_by_value_alone
              (mkMerged "GROUP_A" 3 fake_picture 0 Samples.cust1 1)
              Samples.conditions eq_refl) as (Hfail & _ & Hsame).
  split.
  - apply Hfail. cbn. lia.
  - apply Hsame; reflexivity.
Defined.

(** ** Customers without verdicts *)

Lemma customer_without_registration
    cid customer_audit condition_data registration_data :
  (forall r, In r registration_data -> r_customer_id r <> cid) ->
  process_single_customer cid customer_audit condition_data registration_data
  = mkCustomerResult cid FAIL NO_REGISTRATION empty.
Proof.
  intros Hnone. unfold process_single_customer.
  replace (filter (fun r => String.eqb (r_customer_id r) cid)
                  registration_data) with (@nil RegistrationRow);
    [reflexivity|].
  symmetry. apply filter_nil_iff. intros r Hr.
  apply String.eqb_neq. now apply Hnone.
Qed.

Lemma customer_without_matching_audit
    cid customer_audit condition_data registration_data :
  (exists r, In r registration_data /\ r_customer_id r = cid) ->
  (forall a r, In a customer_audit -> In r registration_data ->
               r_customer_id r = cid ->
               ~ (a_customer_id a = cid /\
                  a_program_type a = r_program_type r)) ->
  process_single_customer cid customer_audit condition_data registration_data
  = mkCustomerResult cid FAIL NO_AUDIT_DATA empty.
Proof.
  intros [r0 [Hin0 Hc0]] Hjoin. unfold process_single_customer.
  destruct (filter (fun r => String.eqb (r_customer_id r) cid)
                   registration_data) as [|r1 regs] eqn:E.
  - rewrite filter_nil_iff in E. specialize (E r0 Hin0).
    rewrite Hc0, String.eqb_refl in E. discriminate.
  - replace (merge customer_audit (r1 :: regs)) with (@nil MergedRow);
      [reflexivity|].
    symmetry. apply merge_nil_iff. intros a r Ha Hr [E1 E2].
    rewrite <- E in Hr. apply filter_In in Hr. destruct Hr as [Hr Hc].
    apply String.eqb_eq in Hc.
    apply (Hjoin a r Ha Hr Hc). split; congruence.
Qed.

(** C7.  A customer with no registration row gets FAIL with reason
    NO_REGISTRATION; a customer with registrations none of which joins
    with an audit row on (customer_id, program_type) gets FAIL with reason
    NO_AUDIT_DATA.  In both cases [group_results] is empty, so there is no
    group verdict and no program verdict. *)
Theorem process_single_customer_without_match
    (cid : string) (customer_audit : list AuditRow)
    (condition_data : list ConditionRow)
    (registration_data : list RegistrationRow) :
  let result :=
    process_single_customer cid customer_audit condition_data
                            registration_data in
  ((forall r, In r registration_data -> r_customer_id r <> cid) ->
   result = mkCustomerResult cid FAIL NO_REGISTRATION empty)
  /\
  ((exists r, In r registration_data /\ r_customer_id r = cid) ->
   (forall a r, In a customer_audit -> In r registration_data ->
                r_customer_id r = cid ->
                ~ (a_customer_id a = cid /\
                   a_program_type a = r_program_type r)) ->
   result = mkCustomerResult cid FAIL NO_AUDIT_DATA empty).
Proof.
  intros result. subst result. split.
  - apply customer_without_registration.
  - apply customer_without_matching_audit.
Qed.

Lemma process_single_customer_without_match_witness :
  process_single_customer Samples.cust1 Samples.veto_audit
    Samples.conditions [] =
  mkCustomerResult Samples.cust1 FAIL NO_REGISTRATION empty
  /\ process_single_customer Samples.cust1 Samples.unmatched_audit
       Samples.conditions Samples.unmatched_registrations =
     mkCustomerResult Samples.cust1 FAIL NO_AUDIT_DATA empty.
Proof.
  split.
  - apply (proj1 (process_single_customer_without_match Samples.cust1
                    Samples.veto_audit Samples.conditions [])).
    intros r [].
  - apply (proj2 (process_single_customer_without_match Samples.cust1
                    Samples.unmatched_audit Samples.conditions
                    Samples.unmatched_registrations)).
    + eexists. split; [left; reflexivity | reflexivity].
    + intros a r [<-|[]] [<-|[]] _ [_ H]. discriminate H.
Defined.

(** ** Malformed input *)




(** ** Group evaluation *)

Lemma count_pass_cons {A : Type} (status : A -> Status) x l :
  count_pass status (x :: l) =
  match status x with PASS => 1 | FAIL => 0 end + count_pass status l.
Proof.
  unfold count_pass. cbn [filter].
  destruct (status x); cbn [Status_eqb List.length]; lia.
Qed.

Lemma count_pass_bounds {A : Type} (status : A -> Status) l :
  0 <= count_pass status l <= Z.of_nat (List.length l).
Proof.
  induction l as [|x l IH].
  - unfold count_pass. simpl. lia.
  - rewrite count_pass_cons. simpl List.length. destruct (status x); lia.
Qed.

(** A row whose verdict is FAIL is not counted. *)
Lemma count_pass_with_failure {A : Type} (status : A -> Status) l x :
  In x l -> status x = FAIL ->
  count_pass status l <= Z.of_nat (List.length l) - 1.
Proof.
  induction l as [|y l IH]; [intros []|].
  intros [->|Hin] Hx; rewrite count_pass_cons; simpl List.length.
  - rewrite Hx. pose proof (count_pass_bounds status l). lia.
  - specialize (IH Hin Hx). destruct (status y); lia.
Qed.

Section GroupLoop.
Variable group_conditions : list ConditionRow.

Let verdict (row : MergedRow) : ProgramResult :=
  program_result_of_row row group_conditions.

Let step := group_step group_conditions.

Lemma group_fold_count rows : forall d n,
  snd (fold_left step rows (d, n)) =
  n + count_pass pass_status (map verdict rows).
Proof.
  induction rows as [|row rows IH]; intros d n; simpl.
  - unfold count_pass. simpl. lia.
  - unfold step at 2, group_step. cbn [fst snd]. rewrite IH.
    rewrite count_pass_cons. fold (verdict row).
    destruct (pass_status (verdict row)); lia.
Qed.

Lemma group_fold_entries rows : forall d n k pr,
  In (k, pr) (fst (fold_left step rows (d, n))) ->
  In (k, pr) d \/
  exists row, In row rows /\ k = m_program_type row /\ pr = verdict row.
Proof.
  induction rows as [|row rows IH]; intros d n k pr; simpl.
  - now left.
  - unfold step at 2, group_step. cbn [fst snd]. intros H.
    apply IH in H. destruct H as [H|(row' & Hin & Hk & Hv)].
    + apply in_set_inv in H. destruct H as [[-> ->]|H]; [|now left].
      right. exists row. repeat split. now left.
    + right. exists row'. repeat split; try assumption. now right.
Qed.

Lemma group_fold_distinct rows : forall d n,
  NoDup (map m_program_type rows) ->
  (forall row, In row rows -> ~ In (m_program_type row) (keys d)) ->
  fst (fold_left step rows (d, n)) =
  (d ++ map (fun row => (m_program_type row, verdict row)) rows)%list.
Proof.
  induction rows as [|row rows IH]; intros d n Hnd Hfresh; simpl.
  - now rewrite app_nil_r.
  - unfold step at 2, group_step. cbn [fst snd].
    inversion Hnd as [|p ps Hnotin Hnd']; subst.
    rewrite set_fresh by (apply Hfresh; now left).
    rewrite IH; [now rewrite <- app_assoc | assumption |].
    intros row' Hin. unfold keys. rewrite map_app, in_app_iff.
    intros [H|[H|[]]].
    + apply (Hfresh row'); [now right | assumption].
    + simpl in H. apply Hnotin. rewrite H. now apply in_map.
Qed.

Lemma group_loop_passed group_data :
  snd (group_loop group_conditions group_data) =
  count_pass pass_status (map verdict group_data).
Proof. unfold group_loop. fold step. now rewrite group_fold_count. Qed.

Lemma group_loop_entry group_data k pr :
  In (k, pr) (fst (group_loop group_conditions group_data)) ->
  exists row,
    In row group_data /\ k = m_program_type row /\ pr = verdict row.
Proof.
  unfold group_loop. fold step. intros H.
  apply group_fold_entries in H. now destruct H as [[]|H].
Qed.

Lemma group_loop_distinct group_data :
  NoDup (map m_program_type group_data) ->
  values (fst (group_loop group_conditions group_data)) =
  map verdict group_data.
Proof.
  intros Hnd. unfold group_loop. fold step.
  rewrite group_fold_distinct; [|assumption|intros row _ []].
  unfold empty, values. simpl. rewrite map_map. reflexivity.
Qed.

End GroupLoop.

Lemma process_single_group_no_conditions group_name group_data condition_data :
  filter (fun c => String.eqb (c_group c) group_name) condition_data = [] ->
  process_single_group group_name group_data condition_data =
  mkGroupResult group_name FAIL (Some NO_CONDITIONS) None None empty.
Proof. intros H. unfold process_single_group. now rewrite H. Qed.

Lemma process_single_group_with_conditions
    group_name group_data condition_data first rest :
  filter (fun c => String.eqb (c_group c) group_name) condition_data
  = first :: rest ->
  process_single_group group_name group_data condition_data =
  let loop := group_loop (first :: rest) group_data in
  mkGroupResult group_name
    (if snd loop >=? group_min_value first then PASS else FAIL)
    None (Some (snd loop)) (Some (group_min_value first)) (fst loop).
Proof.
  intros H. unfold process_single_group. rewrite H.
  now destruct (group_loop (first :: rest) group_data).
Qed.

(** C2.  Quota of a group.  When the rule table has no rule of the group,
    the group verdict is FAIL with reason NO_CONDITIONS.  Otherwise, with
    [required_count] the [group_min_value] of the first rule of the group
    and [passed_count] the number of matched rows of the group whose
    program verdict is PASS, the group verdict reports both counts and is
    PASS iff [passed_count >= required_count].  When each program occurs
    once among the matched rows, the stored program verdicts are the
    verdicts of the rows, so [passed_count] is the number of stored
    program verdicts with status PASS. *)
Theorem process_single_group_quota
    (group_name : string) (group_data : list MergedRow)
    (condition_data : list ConditionRow) :
  let group_conditions :=
    filter (fun c => String.eqb (c_group c) group_name) condition_data in
  let gr := process_single_group group_name group_data condition_data in
  let passed_count :=
    count_pass pass_status
      (map (fun row => program_result_of_row row group_conditions)
           group_data) in
  ((forall c, In c condition_data -> c_group c <> group_name) ->
   group_status gr = FAIL /\ group_reason gr = Some NO_CONDITIONS)
  /\
  (forall first rest,
      group_conditions = first :: rest ->
      let required_count := group_min_value first in
      passed_programs gr = Some passed_count /\
      required_programs gr = Some required_count /\
      (group_status gr = PASS <-> passed_count >= required_count) /\
      (group_status gr = FAIL <-> passed_count < required_count) /\
      (NoDup (map m_program_type group_data) ->
       count_pass pass_status (values (program_results gr)) = passed_count)).
Proof.
  intros group_conditions gr passed_count. split.
  - intros Hnone. subst gr.
    rewrite process_single_group_no_conditions; [now cbn|].
    apply filter_nil_iff. intros c Hc. apply String.eqb_neq.
    now apply Hnone.
  - intros first rest Hf required_count. subst gr passed_count.
    rewrite (process_single_group_with_conditions _ _ _ _ _ Hf).
    fold group_conditions in Hf. rewrite Hf. cbn zeta.
    cbn [passed_programs required_programs group_status program_results].
    rewrite group_loop_passed, Z.geb_leb. repeat split.
    + intros H. destruct (_ <=? _) eqn:E in H; [|discriminate].
      apply Z.leb_le in E. subst required_count. lia.
    + intros H. apply Z.ge_le, Z.leb_le in H.
      subst required_count. now rewrite H.
    + intros H. destruct (_ <=? _) eqn:E in H; [discriminate|].
      apply Z.leb_gt in E. subst required_count. lia.
    + intros H. apply Z.leb_gt in H. subst required_count. now rewrite H.
    + intros Hnd. now rewrite group_loop_distinct.
Qed.

(** Scenario D with one required pass: one passing row out of two. *)
Lemma process_single_group_quota_witness :
  group_status
    (process_single_group "GROUP_A"
       [Samples.row_A; Samples.row_no_rule] Samples.conditions) = PASS
  /\ group_reason
       (process_single_group "GROUP_Z" [Samples.row_A] Samples.conditions)
     = Some NO_CONDITIONS.
Proof.
  split.
  - destruct (process_single_group_quota "GROUP_A"
                [Samples.row_A; Samples.row_no_rule] Samples.conditions)
      as [_ H].
    destruct (H (mkCondition "GROUP_A" 40 5 1 "PROG_001")
                [mkCondition "GROUP_A" 10 2 1 "PROG_002"] eq_refl)
      as (_ & _ & Hpass & _).
    apply Hpass. vm_compute. discriminate.
  - destruct (process_single_group_quota "GROUP_Z"
                [Samples.row_A] Samples.conditions) as [H _].
    apply H. intros c Hin.
    cbn in Hin. destruct Hin as [<-|[<-|[<-|[]]]]; cbn; discriminate.
Defined.

(** The counter of [process_single_group] runs over rows while the
    dictionary keeps one verdict per program: two passing rows of one
    program meet a quota of two although a single verdict is stored. *)
Remark duplicate_rows_are_counted_per_row :
  let gr :=
    process_single_group "GROUP_B"
      [ mkMerged "GROUP_B" 5 "PROG_003" 0 Samples.cust1 1;
        mkMerged "GROUP_B" 6 "PROG_003" 1 Samples.cust1 1 ]
      Samples.conditions in
  group_status gr = PASS /\ passed_programs gr = Some 2 /\
  count_pass pass_status (values (program_results gr)) = 1.
Proof. vm_compute. repeat split. Qed.

(** ** Grouping *)

Lemma in_insert_key k ks x : In x (insert_key k ks) <-> x = k \/ In x ks.
Proof.
  induction ks as [|k' ks IH]; simpl.
  - intuition.
  - destruct (String.compare k k') eqn:E; simpl.
    + apply String.compare_eq_iff in E. subst k'. intuition.
    + intuition.
    + rewrite IH. intuition.
Qed.

Lemma in_group_keys {A : Type} (key : A -> string) rows k :
  In k (group_keys key rows) <-> exists r, In r rows /\ key r = k.
Proof.
  unfold group_keys. induction rows as [|r rows IH]; simpl.
  - split; [intros [] | intros [r [[] _]]].
  - rewrite in_insert_key, IH. split.
    + intros [->|[r' [Hin Hk]]]; [exists r | exists r']; auto.
    + intros [r' [[<-|Hin] Hk]]; [now left | right; now exists r'].
Qed.

(** A dictionary filled from the groups of a frame, one entry per group. *)
Section Collect.
Context {A V : Type}.
Variable key : A -> string.
Variable rows : list A.
Variable P : string -> list A -> V.

Let G (k : string) : list A := filter (fun r => String.eqb (key r) k) rows.

Let body := fun (d : dict V) (g : string * list A) =>
              set (fst g) (P (fst g) (snd g)) d.

Lemma collect_get_out ks : forall d0 k,
  ~ In k ks ->
  get k (fold_left body (map (fun k => (k, G k)) ks) d0) = get k d0.
Proof.
  induction ks as [|k' ks IH]; intros d0 k Hk; simpl; [reflexivity|].
  rewrite IH by (intros H; apply Hk; now right).
  unfold body. cbn [fst snd]. apply get_set_other.
  intros ->. apply Hk. now left.
Qed.

Lemma collect_get_in ks : forall d0 k,
  In k ks ->
  get k (fold_left body (map (fun k => (k, G k)) ks) d0) = Some (P k (G k)).
Proof.
  induction ks as [|k' ks IH]; intros d0 k; simpl; [intros []|].
  intros Hin. destruct (in_dec string_dec k ks) as [Hk|Hk].
  - now apply IH.
  - destruct Hin as [->|Hin]; [|contradiction].
    rewrite collect_get_out by assumption.
    unfold body. cbn [fst snd]. apply get_set_same.
Qed.

Lemma collect_in ks : forall d0 k v,
  In (k, v) (fold_left body (map (fun k => (k, G k)) ks) d0) ->
  In (k, v) d0 \/ (In k ks /\ v = P k (G k)).
Proof.
  induction ks as [|k' ks IH]; intros d0 k v; simpl; [now left|].
  intros H. apply IH in H. destruct H as [H|[H1 H2]].
  - unfold body in H. cbn [fst snd] in H. apply in_set_inv in H.
    destruct H as [[-> ->]|H]; [right; split; [now left | reflexivity]
                               | now left].
  - right. split; [now right | assumption].
Qed.

Lemma groupby_get k :
  (exists r, In r rows /\ key r = k) ->
  get k (fold_left body (groupby key rows) empty) = Some (P k (G k)).
Proof.
  intros H. unfold groupby. apply collect_get_in. now apply in_group_keys.
Qed.

Lemma groupby_get_none k :
  (forall r, In r rows -> key r <> k) ->
  get k (fold_left body (groupby key rows) empty) = None.
Proof.
  intros H. unfold groupby. rewrite collect_get_out; [reflexivity|].
  rewrite in_group_keys. intros [r [Hin Hk]]. now apply (H r).
Qed.

Lemma groupby_in k v :
  In (k, v) (fold_left body (groupby key rows) empty) ->
  (exists r, In r rows /\ key r = k) /\ v = P k (G k).
Proof.
  intros H. unfold groupby in H. apply collect_in in H.
  destruct H as [[]|[H1 H2]]. split; [now apply in_group_keys | assumption].
Qed.

End Collect.

(** ** Customer evaluation *)

Lemma determine_overall_status_pass (d : dict GroupResult) :
  determine_overall_status d = PASS <->
  forall g gr, In (g, gr) (items d) -> group_status gr = PASS.
Proof.
  unfold items. induction d as [|[g0 gr0] d IH]; simpl.
  - split; [intros _ g gr [] | reflexivity].
  - destruct (group_status gr0) eqn:E; split.
    + intros H g gr [Heq|Hin];
        [inversion Heq; now subst | now apply (proj1 IH H g gr)].
    + intros H. apply (proj2 IH). intros g gr Hin. apply (H g gr). now right.
    + discriminate.
    + intros H. specialize (H g0 gr0 (or_introl eq_refl)). congruence.
Qed.

Lemma determine_overall_status_fail (d : dict GroupResult) :
  determine_overall_status d = FAIL <->
  exists g gr, In (g, gr) (items d) /\ group_status gr = FAIL.
Proof.
  split.
  - intros H. unfold items. induction d as [|[g0 gr0] d IH]; simpl in *.
    + discriminate.
    + destruct (group_status gr0) eqn:E.
      * destruct (IH H) as (g & gr & Hin & Hs). exists g, gr. auto.
      * exists g0, gr0. auto.
  - intros (g & gr & Hin & Hs).
    destruct (determine_overall_status d) eqn:E; [|reflexivity].
    rewrite determine_overall_status_pass in E.
    specialize (E g gr Hin). congruence.
Qed.

Lemma customer_groups_loop_get merged condition_data g :
  (exists m, In m merged /\ m_group m = g) ->
  get g (customer_groups_loop merged condition_data) =
  Some (process_single_group g
          (filter (fun m => String.eqb (m_group m) g) merged) condition_data).
Proof.
  intros H. unfold customer_groups_loop.
  apply (groupby_get m_group merged
           (fun g rows => process_single_group g rows condition_data) g H).
Qed.

Lemma customer_groups_loop_get_none merged condition_data g :
  (forall m, In m merged -> m_group m <> g) ->
  get g (customer_groups_loop merged condition_data) = None.
Proof.
  intros H. unfold customer_groups_loop.
  apply (groupby_get_none m_group merged
           (fun g rows => process_single_group g rows condition_data) g H).
Qed.

Lemma customer_groups_loop_in merged condition_data g gr :
  In (g, gr) (customer_groups_loop merged condition_data) ->
  (exists m, In m merged /\ m_group m = g) /\
  gr = process_single_group g
         (filter (fun m => String.eqb (m_group m) g) merged) condition_data.
Proof.
  unfold customer_groups_loop.
  apply (groupby_in m_group merged
           (fun g rows => process_single_group g rows condition_data) g gr).
Qed.

(** The two shapes of a customer result. *)
Lemma process_single_customer_cases cid customer_audit condition_data
    registration_data :
  let result :=
    process_single_customer cid customer_audit condition_data
                            registration_data in
  let merged :=
    merge customer_audit
          (filter (fun r => String.eqb (r_customer_id r) cid)
                  registration_data) in
  (group_results result = empty /\ overall_status result = FAIL /\
   customer_reason result <> PROCESSED)
  \/
  (merged <> [] /\
   result =
   mkCustomerResult cid
     (determine_overall_status (customer_groups_loop merged condition_data))
     PROCESSED (customer_groups_loop merged condition_data)).
Proof.
  cbn zeta. unfold process_single_customer.
  destruct (filter _ registration_data) as [|r regs].
  - left. cbn. repeat split. discriminate.
  - destruct (merge customer_audit (r :: regs)) as [|m merged].
    + left. cbn. repeat split. discriminate.
    + right. split; [discriminate | reflexivity].
Qed.

(** Stored program verdicts of a group come from its matched rows. *)
Lemma process_single_group_entry group_name group_data condition_data p pr :
  In (p, pr)
     (items (program_results
               (process_single_group group_name group_data condition_data))) ->
  exists row,
    In row group_data /\ p = m_program_type row /\
    pr = program_result_of_row row
           (filter (fun c => String.eqb (c_group c) group_name)
                   condition_data).
Proof.
  unfold items.
  destruct (filter (fun c => String.eqb (c_group c) group_name)
                   condition_data) as [|first rest] eqn:E.
  - rewrite (process_single_group_no_conditions _ _ _ E). intros [].
  - rewrite (process_single_group_with_conditions _ _ _ _ _ E).
    cbn zeta. cbn [program_results]. apply group_loop_entry.
Qed.

(** C5.  A customer that produced at least one group verdict has overall
    status PASS iff every group verdict has status PASS; one FAIL group
    makes the overall status FAIL. *)
Theorem overall_status_all_groups
    (cid : string) (customer_audit : list AuditRow)
    (condition_data : list ConditionRow)
    (registration_data : list RegistrationRow) :
  let result :=
    process_single_customer cid customer_audit condition_data
                            registration_data in
  group_results result <> empty ->
  (overall_status result = PASS <->
   forall g gr, In (g, gr) (items (group_results result)) ->
                group_status gr = PASS)
  /\
  ((exists g gr, In (g, gr) (items (group_results result)) /\
                 group_status gr = FAIL) ->
   overall_status result = FAIL).
Proof.
  intros result Hne.
  destruct (process_single_customer_cases cid customer_audit condition_data
              registration_data) as [(He & _)|(_ & Hr)].
  - contradiction.
  - fold result in Hr. rewrite Hr. cbn [overall_status group_results]. split.
    + apply determine_overall_status_pass.
    + apply determine_overall_status_fail.
Qed.

Lemma overall_status_all_groups_witness :
  overall_status
    (process_single_customer Samples.cust1 Samples.clean_audit
       Samples.conditions Samples.clean_registrations) = FAIL.
Proof.
  destruct (overall_status_all_groups Samples.cust1 Samples.clean_audit
              Samples.conditions Samples.clean_registrations) as [_ H].
  - vm_compute. discriminate.
  - apply H. eexists. eexists. split; [left; reflexivity | reflexivity].
Defined.

(** ** Sentinel failure and the quota *)

(** C4, as stated, fails: with a quota of one pass, a group holding a
    failed sentinel verdict and one passing program is PASS, and so is the
    customer. *)
Lemma sentinel_failure_without_veto :
  let result :=
    process_single_customer Samples.cust1 Samples.veto_audit
      Samples.conditions Samples.veto_registrations in
  exists gr pr,
    get "GROUP_A" (group_results result) = Some gr /\
    get fake_picture (program_results gr) = Some pr /\
    pass_status pr = FAIL /\
    group_status gr = PASS /\
    overall_status result = PASS.
Proof. cbn. eexists. eexists. repeat split. Qed.

(** C4, amended.  When the sentinel verdict stored for a group of an
    evaluated customer is FAIL, that verdict is not counted: the group's
    passed count is at most the number of its matched rows minus one, the
    group is FAIL iff the passed count is below the required count (so it
    is FAIL whenever the quota asks for as many passes as there are
    matched rows), and a FAIL group makes the customer FAIL. *)
Theorem sentinel_failure_counts_against_quota
    (cid : string) (customer_audit : list AuditRow)
    (condition_data : list ConditionRow)
    (registration_data : list RegistrationRow)
    (g : string) (gr : GroupResult) (pr : ProgramResult) :
  let result :=
    process_single_customer cid customer_audit condition_data
                            registration_data in
  let rows :=
    filter (fun m => String.eqb (m_group m) g)
      (merge customer_audit
         (filter (fun r => String.eqb (r_customer_id r) cid)
                 registration_data)) in
  get g (group_results result) = Some gr ->
  get fake_picture (program_results gr) = Some pr ->
  pass_status pr = FAIL ->
  exists passed required,
    passed_programs gr = Some passed /\
    required_programs gr = Some required /\
    passed <= Z.of_nat (List.length rows) - 1 /\
    (group_status gr = FAIL <-> passed < required) /\
    (Z.of_nat (List.length rows) <= required -> group_status gr = FAIL) /\
    (group_status gr = FAIL -> overall_status result = FAIL).
Proof.
  intros result rows Hg Hpr Hfail.
  destruct (process_single_customer_cases cid customer_audit condition_data
              registration_data) as [(He & _)|(_ & Hr)].
  - fold result in He. rewrite He in Hg. discriminate.
  - fold result in Hr. rewrite Hr in Hg |- *. cbn [group_results] in Hg.
    cbn [overall_status].
    apply get_some_in in Hg. pose proof Hg as Hin.
    apply customer_groups_loop_in in Hg. destruct Hg as [_ Hgr].
    fold rows in Hgr.
    destruct (filter (fun c => String.eqb (c_group c) g) condition_data)
      as [|first rest] eqn:E.
    + rewrite (process_single_group_no_conditions _ _ _ E) in Hgr.
      subst gr. discriminate.
    + rewrite (process_single_group_with_conditions _ _ _ _ _ E) in Hgr.
      cbn zeta in Hgr.
      assert (Hle : snd (group_loop (first :: rest) rows)
                    <= Z.of_nat (List.length rows) - 1).
      { subst gr. cbn [program_results] in Hpr.
        apply get_some_in, group_loop_entry in Hpr.
        destruct Hpr as (row & Hrow & _ & Hv).
        rewrite group_loop_passed.
        rewrite <- (length_map (fun row =>
                      program_result_of_row row (first :: rest)) rows).
        apply count_pass_with_failure
          with (x := program_result_of_row row (first :: rest)).
        - apply (in_map (fun row =>
                     program_result_of_row row (first :: rest))).
          assumption.
        - now rewrite <- Hv. }
      exists (snd (group_loop (first :: rest) rows)), (group_min_value first).
      assert (Hiff : group_status gr = FAIL <->
                     snd (group_loop (first :: rest) rows)
                     < group_min_value first).
      { subst gr. cbn [group_status]. rewrite Z.geb_leb.
        destruct (_ <=? _) eqn:Eq.
        - apply Z.leb_le in Eq. split; [discriminate | lia].
        - apply Z.leb_gt in Eq. now split. }
      repeat split.
      * now subst gr.
      * now subst gr.
      * assumption.
      * apply Hiff.
      * apply Hiff.
      * intros Hq. apply Hiff. lia.
      * intros Hs. apply determine_overall_status_fail.
        exists g, gr. now split.
Qed.

(** A customer registered for the sentinel only: the single matched row
    fails, so no quota of at least one pass can be met. *)
Lemma sentinel_failure_counts_against_quota_witness :
  overall_status
    (process_single_customer Samples.cust1 Samples.veto_audit
       Samples.conditions Samples.sentinel_only_registrations) = FAIL.
Proof.
  destruct (sentinel_failure_counts_against_quota Samples.cust1
              Samples.veto_audit Samples.conditions
              Samples.sentinel_only_registrations "GROUP_A"
              (mkGroupResult "GROUP_A" FAIL None (Some 0) (Some 1)
                 [(fake_picture,
                   mkProgramResult fake_picture FAIL FAKE_PICTURE_DETECTED 3
                                   None None None None)])
              (mkProgramResult fake_picture FAIL FAKE_PICTURE_DETECTED 3
                               None None None None)
              eq_refl eq_refl eq_refl)
    as (passed & required & _ & _ & _ & _ & _ & H).
  apply H. reflexivity.
Defined.

(** ** Batch run *)

Lemma batch_get audit_data condition_data registration_data cid :
  (exists a, In a audit_data /\ a_customer_id a = cid) ->
  get cid (process_audit_for_all_customers audit_data condition_data
             registration_data) =
  Some (process_single_customer cid
          (filter (fun a => String.eqb (a_customer_id a) cid) audit_data)
          condition_data registration_data).
Proof.
  intros H. unfold process_audit_for_all_customers.
  apply (groupby_get a_customer_id audit_data
           (fun cid rows =>
              process_single_customer cid rows condition_data
                                      registration_data) cid H).
Qed.

Lemma batch_get_none audit_data condition_data registration_data cid :
  (forall a, In a audit_data -> a_customer_id a <> cid) ->
  get cid (process_audit_for_all_customers audit_data condition_data
             registration_data) = None.
Proof.
  intros H. unfold process_audit_for_all_customers.
  apply (groupby_get_none a_customer_id audit_data
           (fun cid rows =>
              process_single_customer cid rows condition_data
                                      registration_data) cid H).
Qed.

(** C6, as stated, fails: a customer with a registration for program [X]
    and no audit row anywhere in the period is absent from the results of
    the batch run. *)
Lemma registered_customer_without_audit_has_no_verdict :
  let all_results :=
    process_audit_for_all_customers Samples.lonely_audit Samples.conditions
      Samples.lonely_registrations in
  (exists r, In r Samples.lonely_registrations /\
             r_customer_id r = Samples.cust1) /\
  get Samples.cust1 all_results = None /\
  keys all_results = [Samples.cust2].
Proof.
  cbn. split; [|split; reflexivity].
  eexists. split; [left; reflexivity | reflexivity].
Qed.

(** C6, amended.  The batch run produces a customer verdict for every
    customer that appears in the audit set, namely the result of
    [process_single_customer] on that customer's audit rows, and for no
    other customer.  A customer with audit rows and with registrations,
    none of which matches one of those audit rows on the program, gets
    FAIL with reason NO_AUDIT_DATA and no group or program verdicts. *)
Theorem batch_covers_audited_customers
    (audit_data : list AuditRow) (condition_data : list ConditionRow)
    (registration_data : list RegistrationRow) (cid : string) :
  let all_results :=
    process_audit_for_all_customers audit_data condition_data
                                    registration_data in
  ((exists a, In a audit_data /\ a_customer_id a = cid) ->
   get cid all_results =
   Some (process_single_customer cid
           (filter (fun a => String.eqb (a_customer_id a) cid) audit_data)
           condition_data registration_data))
  /\
  ((forall a, In a audit_data -> a_customer_id a <> cid) ->
   get cid all_results = None)
  /\
  ((exists a, In a audit_data /\ a_customer_id a = cid) ->
   (exists r, In r registration_data /\ r_customer_id r = cid) ->
   (forall a r, In a audit_data -> In r registration_data ->
                a_customer_id a = cid -> r_customer_id r = cid ->
                a_program_type a <> r_program_type r) ->
   get cid all_results = Some (mkCustomerResult cid FAIL NO_AUDIT_DATA empty)).
Proof.
  intros all_results. subst all_results. split; [|split].
  - apply batch_get.
  - apply batch_get_none.
  - intros Ha Hr Hjoin. rewrite (batch_get _ _ _ _ Ha). f_equal.
    apply (customer_without_matching_audit cid _ condition_data
             registration_data Hr).
    intros a r Hin Hinr Hc [Hca Hp].
    apply filter_In in Hin. destruct Hin as [Hin _].
    now apply (Hjoin a r Hin Hinr Hca Hc).
Qed.

Lemma batch_covers_audited_customers_witness :
  get Samples.cust1
    (process_audit_for_all_customers Samples.unmatched_audit
       Samples.conditions Samples.unmatched_registrations) =
  Some (mkCustomerResult Samples.cust1 FAIL NO_AUDIT_DATA empty)
  /\ get Samples.cust1
       (process_audit_for_all_customers Samples.lonely_audit
          Samples.conditions Samples.lonely_registrations) = None.
Proof.
  split.
  - apply (proj2 (proj2 (batch_covers_audited_customers
                           Samples.unmatched_audit Samples.conditions
                           Samples.unmatched_registrations Samples.cust1))).
    + eexists. split; [left; reflexivity | reflexivity].
    + eexists. split; [left; reflexivity | reflexivity].
    + intros a r [<-|[]] [<-|[]] _ _. discriminate.
  - apply (proj1 (proj2 (batch_covers_audited_customers
                           Samples.lonely_audit Samples.conditions
                           Samples.lonely_registrations Samples.cust1))).
    intros a [<-|[]]. discriminate.
Defined.

(** ** Exception flag *)

Lemma fake_picture_detected_iff (result : CustomerResult) :
  fake_picture_detected result = true <->
  exists g gr p pr,
    In (g, gr) (items (group_results result)) /\
    In (p, pr) (items (program_results gr)) /\
    program_type pr = fake_picture /\ pass_status pr = FAIL.
Proof.
  unfold fake_picture_detected, values, items. rewrite existsb_exists. split.
  - intros (gr & Hgr & H). rewrite existsb_exists in H.
    destruct H as (pr & Hpr & H). apply andb_true_iff in H.
    destruct H as [Hp Hs]. apply String.eqb_eq in Hp.
    apply in_map_iff in Hgr. destruct Hgr as ([g gr'] & Eg & Hgr).
    apply in_map_iff in Hpr. destruct Hpr as ([p pr'] & Ep & Hpr).
    cbn in Eg, Ep. subst gr' pr'.
    exists g, gr, p, pr. repeat split; try assumption.
    now destruct (pass_status pr).
  - intros (g & gr & p & pr & Hgr & Hpr & Hp & Hs).
    exists gr. split; [apply in_map_iff; now exists (g, gr)|].
    rewrite existsb_exists. exists pr.
    split; [apply in_map_iff; now exists (p, pr)|].
    rewrite Hp, Hs. now rewrite String.eqb_refl.
Qed.

(** C9.  The flag [fake_picture_detected] written on the customer row is
    1 iff some stored program verdict of the sentinel program, in some
    group of the customer, has status FAIL, and is 0 otherwise.  It does
    not depend on the overall status: it is unchanged when the status and
    reason of the result are replaced, and the engine produces all four
    combinations of flag and overall status. *)
Theorem exception_flag_iff_sentinel_failed :
  (forall cid result,
      (cd_fake_picture_detected (customer_data_row cid result) = 1 <->
       exists g gr p pr,
         In (g, gr) (items (group_results result)) /\
         In (p, pr) (items (program_results gr)) /\
         program_type pr = fake_picture /\ pass_status pr = FAIL)
      /\
      (cd_fake_picture_detected (customer_data_row cid result) = 0 \/
       cd_fake_picture_detected (customer_data_row cid result) = 1)
      /\
      (forall status reason,
          cd_fake_picture_detected
            (customer_data_row cid
               (mkCustomerResult (customer_id result) status reason
                                 (group_results result))) =
          cd_fake_picture_detected (customer_data_row cid result)))
  /\
  (forall flag status,
      flag = 0 \/ flag = 1 ->
      exists cid customer_audit condition_data registration_data,
        let result :=
          process_single_customer cid customer_audit condition_data
                                  registration_data in
        cd_fake_picture_detected (customer_data_row cid result) = flag /\
        cd_overall_status (customer_data_row cid result) = status).
Proof.
  split.
  - intros cid result. cbn [customer_data_row cd_fake_picture_detected].
    split; [|split].
    + rewrite <- fake_picture_detected_iff.
      destruct (fake_picture_detected result); split;
        intros H; try reflexivity; discriminate.
    + destruct (fake_picture_detected result); auto.
    + intros status reason. reflexivity.
  - intros flag status [->| ->]; destruct status;
      exists Samples.cust1.
    + exists Samples.veto_audit, Samples.conditions,
        Samples.plain_registrations. now vm_compute.
    + exists Samples.clean_audit, Samples.conditions,
        Samples.clean_registrations. now vm_compute.
    + exists Samples.veto_audit, Samples.conditions,
        Samples.veto_registrations. now vm_compute.
    + exists Samples.veto_audit, Samples.conditions,
        Samples.sentinel_only_registrations. now vm_compute.
Qed.

Lemma exception_flag_iff_sentinel_failed_witness :
  cd_fake_picture_detected
    (customer_data_row Samples.cust1
       (process_single_customer Samples.cust1 Samples.veto_audit
          Samples.conditions Samples.veto_registrations)) = 1.
Proof.
  destruct (proj1 exception_flag_iff_sentinel_failed Samples.cust1
              (process_single_customer Samples.cust1 Samples.veto_audit
                 Samples.conditions Samples.veto_registrations))
    as [Hiff _].
  apply Hiff.
  exists "GROUP_A", (mkGroupResult "GROUP_A" PASS None (Some 1) (Some 1)
     [(fake_picture,
       mkProgramResult fake_picture FAIL FAKE_PICTURE_DETECTED 3
                       None None None None);
      ("PROG_001",
       mkProgramResult "PROG_001" PASS NORMAL_PROCESSING 50
                       (Some 40) (Some 1) (Some 40) (Some 0))]),
    fake_picture,
    (mkProgramResult fake_picture FAIL FAKE_PICTURE_DETECTED 3
                     None None None None).
  repeat split; left; reflexivity.
Defined.

(** ** The join and the sentinel *)

Lemma merge_in left right m :
  In m (merge left right) ->
  exists a r,
    In a left /\ In r right /\
    r_customer_id r = a_customer_id a /\
    r_program_type r = a_program_type a /\
    m_program_type m = a_program_type a.
Proof.
  unfold merge. rewrite in_flat_map. intros (a & Ha & Hm).
  apply in_map_iff in Hm. destruct Hm as (r & <- & Hr).
  apply filter_In in Hr. destruct Hr as [Hr Hk].
  apply andb_true_iff in Hk. destruct Hk as [Hc Hp].
  apply String.eqb_eq in Hc, Hp.
  exists a, r. repeat split; assumption.
Qed.

Lemma merge_without_sentinel left right :
  (forall r, In r right -> r_program_type r <> fake_picture) ->
  merge (filter (fun a => negb (String.eqb (a_program_type a) fake_picture))
                left) right
  = merge left right.
Proof.
  intros Hr. unfold merge. induction left as [|a left IH]; [reflexivity|].
  cbn [filter flat_map].
  destruct (String.eqb (a_program_type a) fake_picture) eqn:E; cbn [negb].
  - apply String.eqb_eq in E.
    replace (filter _ right) with (@nil RegistrationRow); [exact IH|].
    symmetry. apply filter_nil_iff. intros r Hin.
    apply andb_false_iff. right. apply String.eqb_neq.
    rewrite E. now apply Hr.
  - cbn [flat_map]. now rewrite IH.
Qed.

(** C10.  For a customer with no registration for the sentinel program,
    the join holds no sentinel row; hence no group of the customer stores
    a program verdict for the sentinel, the exception flag is 0, and the
    customer's whole result is the one obtained with the sentinel audit
    rows removed: such a row, whatever its measured value, produces no
    verdict and fails no group. *)
Theorem unregistered_sentinel_audit_is_dropped
    (cid : string) (customer_audit : list AuditRow)
    (condition_data : list ConditionRow)
    (registration_data : list RegistrationRow) :
  (forall r, In r registration_data -> r_customer_id r = cid ->
             r_program_type r <> fake_picture) ->
  let customer_registration :=
    filter (fun r => String.eqb (r_customer_id r) cid) registration_data in
  let result :=
    process_single_customer cid customer_audit condition_data
                            registration_data in
  (forall m, In m (merge customer_audit customer_registration) ->
             m_program_type m <> fake_picture)
  /\
  (forall g gr, In (g, gr) (items (group_results result)) ->
                get fake_picture (program_results gr) = None /\
                forall p pr, In (p, pr) (items (program_results gr)) ->
                             program_type pr <> fake_picture)
  /\
  cd_fake_picture_detected (customer_data_row cid result) = 0
  /\
  result =
  process_single_customer cid
    (filter (fun a => negb (String.eqb (a_program_type a) fake_picture))
            customer_audit)
    condition_data registration_data.
Proof.
  intros Hreg customer_registration result.
  assert (Hright : forall r, In r customer_registration ->
                             r_program_type r <> fake_picture).
  { intros r Hr. apply filter_In in Hr. destruct Hr as [Hr Hc].
    apply String.eqb_eq in Hc. now apply Hreg. }
  assert (Hmerged : forall m, In m (merge customer_audit customer_registration)
                              -> m_program_type m <> fake_picture).
  { intros m Hm. apply merge_in in Hm.
    destruct Hm as (a & r & _ & Hr & _ & Hp & Hm).
    rewrite Hm, <- Hp. now apply Hright. }
  assert (Hentries : forall g gr p pr,
             In (g, gr) (items (group_results result)) ->
             In (p, pr) (items (program_results gr)) ->
             p <> fake_picture /\ program_type pr <> fake_picture).
  { intros g gr p pr Hg Hp.
    destruct (process_single_customer_cases cid customer_audit
                condition_data registration_data) as [(He & _)|(_ & Hres)].
    - fold result in He. rewrite He in Hg. destruct Hg.
    - fold result customer_registration in Hres. rewrite Hres in Hg.
      cbn [group_results] in Hg. unfold items in Hg.
      apply customer_groups_loop_in in Hg. destruct Hg as [_ ->].
      apply process_single_group_entry in Hp.
      destruct Hp as (row & Hrow & -> & ->).
      apply filter_In in Hrow. destruct Hrow as [Hrow _].
      rewrite program_type_of_row. split; now apply Hmerged. }
  split; [exact Hmerged | split; [|split]].
  - intros g gr Hg. split.
    + destruct (get fake_picture (program_results gr)) as [pr|] eqn:E;
        [|reflexivity].
      apply get_some_in in E.
      now destruct (proj1 (Hentries g gr fake_picture pr Hg E)).
    + intros p pr Hp. apply (Hentries g gr p pr Hg Hp).
  - cbn [customer_data_row cd_fake_picture_detected].
    destruct (fake_picture_detected result) eqn:E; [|reflexivity].
    apply fake_picture_detected_iff in E.
    destruct E as (g & gr & p & pr & Hg & Hp & Ht & _).
    now destruct (proj2 (Hentries g gr p pr Hg Hp)).
  - subst result. unfold process_single_customer.
    fold customer_registration.
    now rewrite (merge_without_sentinel customer_audit customer_registration
                   Hright).
Qed.

(** A sentinel audit row with three fake pictures for a customer who is
    registered for PROG_002 only. *)
Lemma unregistered_sentinel_audit_is_dropped_witness :
  cd_fake_picture_detected
    (customer_data_row Samples.cust1
       (process_single_customer Samples.cust1 Samples.clean_audit
          Samples.conditions Samples.clean_registrations)) = 0.
Proof.
  apply (unregistered_sentinel_audit_is_dropped Samples.cust1
           Samples.clean_audit Samples.conditions
           Samples.clean_registrations).
  intros r [<-|[]] _. discriminate.
Defined.

(** * Further properties of the pipeline *)

(** ** Keys of a dictionary *)

Section DictKeys.
Context {V : Type}.
Implicit Types (d : dict V) (k : string) (v : V).

Lemma in_keys_set k v d k0 :
  In k0 (keys (set k v d)) <-> k0 = k \/ In k0 (keys d).
Proof.
  unfold keys. induction d as [|[k' v'] d IH]; simpl.
  - intuition.
  - destruct (String.eqb k' k) eqn:E; simpl.
    + apply String.eqb_eq in E. subst k'. intuition.
    + rewrite IH. intuition.
Qed.

Lemma keys_set_present k v d : In k (keys d) -> keys (set k v d) = keys d.
Proof.
  unfold keys. induction d as [|[k' v'] d IH]; simpl; [intros []|].
  destruct (String.eqb k' k) eqn:E; simpl.
  - apply String.eqb_eq in E. now subst.
  - intros [H|H]; [apply String.eqb_neq in E; contradiction|].
    now rewrite IH.
Qed.

Lemma nodup_keys_set k v d : NoDup (keys d) -> NoDup (keys (set k v d)).
Proof.
  intros Hnd. destruct (in_dec string_dec k (keys d)) as [Hin|Hout].
  - now rewrite keys_set_present.
  - rewrite (set_fresh k v d Hout). unfold keys in *. rewrite map_app.
    simpl. apply NoDup_app; [assumption | repeat constructor; intros []|].
    intros x Hx [<-|[]]. contradiction.
Qed.

Lemma nodup_keys_get k v d : NoDup (keys d) -> In (k, v) d -> get k d = Some v.
Proof.
  unfold keys. induction d as [|[k' v'] d IH]; simpl; [intros _ []|].
  intros Hnd [H|H].
  - inversion H. subst. now rewrite String.eqb_refl.
  - inversion Hnd as [|? ? Hnot Hnd']; subst.
    destruct (String.eqb k' k) eqn:E.
    + apply String.eqb_eq in E. subst k'. exfalso. apply Hnot.
      apply in_map_iff. now exists (k, v).
    + now apply IH.
Qed.

End DictKeys.

(** ** Stored program verdicts of a group *)

Lemma count_pass_app {A : Type} (status : A -> Status) l1 l2 :
  count_pass status (l1 ++ l2) = count_pass status l1 + count_pass status l2.
Proof.
  unfold count_pass. rewrite filter_app, length_app. lia.
Qed.

Lemma group_fold_keys group_conditions rows : forall d n p,
  In p (keys (fst (fold_left (group_step group_conditions) rows (d, n)))) <->
  In p (keys d) \/ exists row, In row rows /\ m_program_type row = p.
Proof.
  induction rows as [|row rows IH]; intros d n p; simpl.
  - split; [now left | intros [H|(row & [] & _)]; exact H].
  - unfold group_step at 2. cbn [fst snd]. rewrite IH, in_keys_set. split.
    + intros [[->|H]|(row' & Hin & Hp)].
      * right. exists row. split; [now left | reflexivity].
      * now left.
      * right. exists row'. split; [now right | assumption].
    + intros [H|(row' & [<-|Hin] & Hp)].
      * left. now right.
      * left. left. now symmetry.
      * right. now exists row'.
Qed.

Lemma group_fold_nodup group_conditions rows : forall d n,
  NoDup (keys d) ->
  NoDup (keys (fst (fold_left (group_step group_conditions) rows (d, n)))).
Proof.
  induction rows as [|row rows IH]; intros d n Hnd; simpl; [assumption|].
  unfold group_step at 2. cbn [fst snd]. apply IH. now apply nodup_keys_set.
Qed.

Lemma group_fold_get_other group_conditions rows : forall d n p,
  (forall row, In row rows -> m_program_type row <> p) ->
  get p (fst (fold_left (group_step group_conditions) rows (d, n))) = get p d.
Proof.
  induction rows as [|row rows IH]; intros d n p Hp; simpl; [reflexivity|].
  unfold group_step at 2. cbn [fst snd].
  rewrite IH by (intros row' Hin; apply Hp; now right).
  apply get_set_other. apply Hp. now left.
Qed.

Lemma group_loop_last_write group_conditions before row after :
  (forall row', In row' after -> m_program_type row' <> m_program_type row) ->
  get (m_program_type row)
      (fst (group_loop group_conditions (before ++ row :: after))) =
  Some (program_result_of_row row group_conditions).
Proof.
  intros Hafter. unfold group_loop. rewrite fold_left_app. cbn [fold_left].
  destruct (fold_left (group_step group_conditions) before (empty, 0))
    as [d n].
  unfold group_step at 2. cbn [fst snd].
  rewrite group_fold_get_other by assumption. apply get_set_same.
Qed.

(** Two facts on the group result used below: its stored verdicts and its
    counters, in terms of the loop. *)
Lemma process_single_group_program_results
    group_name group_data condition_data :
  program_results (process_single_group group_name group_data condition_data)
  = match filter (fun c => String.eqb (c_group c) group_name) condition_data
    with
    | [] => empty
    | first :: rest => fst (group_loop (first :: rest) group_data)
    end.
Proof.
  destruct (filter (fun c => String.eqb (c_group c) group_name)
                   condition_data) as [|first rest] eqn:E.
  - now rewrite (process_single_group_no_conditions _ _ _ E).
  - now rewrite (process_single_group_with_conditions _ _ _ _ _ E).
Qed.

(** X1.  The dictionary of program verdicts of a group has one entry per
    program: its keys are distinct, every entry sits under the program
    type it records and comes from a matched row of that program, there
    are no more entries than matched rows, and when the group has rules
    every matched row's program has an entry. *)
Theorem program_results_one_entry_per_program
    (group_name : string) (group_data : list MergedRow)
    (condition_data : list ConditionRow) :
  let gr := process_single_group group_name group_data condition_data in
  NoDup (keys (program_results gr)) /\
  (forall p pr, In (p, pr) (items (program_results gr)) ->
                program_type pr = p /\
                exists row, In row group_data /\ m_program_type row = p) /\
  (List.length (program_results gr) <= List.length group_data)%nat /\
  ((exists c, In c condition_data /\ c_group c = group_name) ->
   forall row, In row group_data ->
               exists pr, get (m_program_type row) (program_results gr)
                          = Some pr).
Proof.
  intros gr.
  assert (Hentry : forall p pr, In (p, pr) (items (program_results gr)) ->
            program_type pr = p /\
            exists row, In row group_data /\ m_program_type row = p).
  { intros p pr H. apply process_single_group_entry in H.
    destruct H as (row & Hin & -> & ->). split.
    - apply program_type_of_row.
    - now exists row. }
  assert (Hnd : NoDup (keys (program_results gr))).
  { subst gr. rewrite process_single_group_program_results.
    destruct (filter _ condition_data); [constructor|].
    apply group_fold_nodup. constructor. }
  split; [exact Hnd | split; [exact Hentry | split]].
  - rewrite <- (length_map fst (program_results gr)).
    rewrite <- (length_map m_program_type group_data).
    apply NoDup_incl_length; [exact Hnd|].
    intros p Hp. apply in_map_iff in Hp. destruct Hp as ([p' pr] & <- & Hp).
    destruct (Hentry p' pr Hp) as [_ (row & Hin & <-)].
    cbn [fst]. now apply (in_map m_program_type).
  - intros (c & Hc & Hg) row Hrow. subst gr.
    rewrite process_single_group_program_results.
    destruct (filter (fun c => String.eqb (c_group c) group_name)
                     condition_data) as [|first rest] eqn:E.
    + rewrite filter_nil_iff in E. specialize (E c Hc).
      rewrite Hg, String.eqb_refl in E. discriminate.
    + assert (Hk : In (m_program_type row)
                      (keys (fst (group_loop (first :: rest) group_data)))).
      { apply group_fold_keys. right. now exists row. }
      unfold keys in Hk. apply in_map_iff in Hk.
      destruct Hk as ([p pr] & Hp & Hin). cbn in Hp. subst p.
      now apply in_get_some with (v := pr).
Qed.

Lemma program_results_one_entry_per_program_witness :
  exists pr,
    get "PROG_001"
        (program_results
           (process_single_group "GROUP_A" [Samples.row_A; Samples.row_B]
              Samples.conditions)) = Some pr.
Proof.
  destruct (program_results_one_entry_per_program "GROUP_A"
              [Samples.row_A; Samples.row_B] Samples.conditions)
    as (_ & _ & _ & H).
  apply (H (ex_intro _ (mkCondition "GROUP_A" 40 5 1 "PROG_001")
                     (conj (or_introl eq_refl) eq_refl))
           Samples.row_A (or_introl eq_refl)).
Defined.

(** X2.  Last write wins: when several matched rows of a group carry the
    same program, the verdict stored for that program is the verdict of
    the last such row. *)
Theorem last_row_of_a_program_wins
    (group_name : string) (before after : list MergedRow) (row : MergedRow)
    (condition_data : list ConditionRow) :
  (exists c, In c condition_data /\ c_group c = group_name) ->
  (forall row', In row' after -> m_program_type row' <> m_program_type row) ->
  get (m_program_type row)
      (program_results
         (process_single_group group_name (before ++ row :: after)
                               condition_data)) =
  Some (program_result_of_row row
          (filter (fun c => String.eqb (c_group c) group_name)
                  condition_data)).
Proof.
  intros (c & Hc & Hg) Hafter.
  rewrite process_single_group_program_results.
  destruct (filter (fun c => String.eqb (c_group c) group_name)
                   condition_data) as [|first rest] eqn:E.
  - rewrite filter_nil_iff in E. specialize (E c Hc).
    rewrite Hg, String.eqb_refl in E. discriminate.
  - now apply group_loop_last_write.
Qed.

Lemma last_row_of_a_program_wins_witness :
  get "PROG_001"
      (program_results
         (process_single_group "GROUP_A" [Samples.row_A; Samples.row_B]
            Samples.conditions)) =
  Some (program_result_of_row Samples.row_B
          (filter (fun c => String.eqb (c_group c) "GROUP_A")
                  Samples.conditions)).
Proof.
  apply (last_row_of_a_program_wins "GROUP_A" [Samples.row_A] []
           Samples.row_B Samples.conditions).
  - eexists. split; [left; reflexivity | reflexivity].
  - intros row' [].
Defined.

(** ** Quota arithmetic *)

(** X3.  In a group with rules the passed count lies between 0 and the
    number of matched rows.  Hence a required count of 0 or less makes the
    group PASS whatever was measured, and a required count above the
    number of matched rows makes it FAIL whatever was measured. *)
Theorem passed_programs_within_rows
    (group_name : string) (group_data : list MergedRow)
    (condition_data : list ConditionRow) (first : ConditionRow)
    (rest : list ConditionRow) :
  filter (fun c => String.eqb (c_group c) group_name) condition_data
  = first :: rest ->
  let gr := process_single_group group_name group_data condition_data in
  exists passed,
    passed_programs gr = Some passed /\
    0 <= passed <= Z.of_nat (List.length group_data) /\
    (group_min_value first <= 0 -> group_status gr = PASS) /\
    (Z.of_nat (List.length group_data) < group_min_value first ->
     group_status gr = FAIL).
Proof.
  intros E gr. subst gr.
  rewrite (process_single_group_with_conditions _ _ _ _ _ E). cbn zeta.
  cbn [passed_programs group_status].
  exists (snd (group_loop (first :: rest) group_data)).
  rewrite group_loop_passed.
  pose proof (count_pass_bounds pass_status
                (map (fun row => program_result_of_row row (first :: rest))
                     group_data)) as Hb.
  rewrite length_map in Hb. rewrite Z.geb_leb.
  repeat split; try apply Hb.
  - intros H. destruct (_ <=? _) eqn:El; [reflexivity|].
    apply Z.leb_gt in El. lia.
  - intros H. destruct (_ <=? _) eqn:El; [|reflexivity].
    apply Z.leb_le in El. lia.
Qed.

Lemma passed_programs_within_rows_witness :
  group_status
    (process_single_group "GROUP_B" [Samples.row_A] Samples.conditions)
  = FAIL.
Proof.
  destruct (passed_programs_within_rows "GROUP_B" [Samples.row_A]
              Samples.conditions (mkCondition "GROUP_B" 3 1 2 "PROG_003") []
              eq_refl) as (passed & _ & _ & _ & H).
  apply H. cbn. lia.
Defined.

(** X4.  Further matched rows never hurt a group: appending rows to the
    group's data never lowers the passed count, whatever the group's
    status, and a group that is PASS stays PASS. *)
Theorem extra_rows_keep_a_group_passing
    (group_name : string) (group_data extra : list MergedRow)
    (condition_data : list ConditionRow) :
  let gr := process_single_group group_name group_data condition_data in
  let gr' :=
    process_single_group group_name (group_data ++ extra) condition_data in
  (forall passed,
      passed_programs gr = Some passed ->
      exists passed', passed_programs gr' = Some passed' /\ passed <= passed')
  /\
  (passed_programs gr = None -> passed_programs gr' = None)
  /\
  (group_status gr = PASS -> group_status gr' = PASS).
Proof.
  cbn zeta.
  destruct (filter (fun c => String.eqb (c_group c) group_name)
                   condition_data) as [|first rest] eqn:E.
  - rewrite !(process_single_group_no_conditions _ _ _ E). cbn.
    repeat split; [intros passed H | intros H]; discriminate.
  - rewrite !(process_single_group_with_conditions _ _ _ _ _ E). cbn zeta.
    cbn [group_status passed_programs]. rewrite !group_loop_passed.
    rewrite map_app, count_pass_app, !Z.geb_leb.
    pose proof (count_pass_bounds pass_status
                  (map (fun row => program_result_of_row row (first :: rest))
                       extra)) as Hb.
    split; [|split].
    + intros passed H. inversion H. subst passed.
      eexists. split; [reflexivity | lia].
    + discriminate.
    + intros H. destruct (_ <=? _) eqn:El in H; [|discriminate].
      apply Z.leb_le in El.
      destruct (_ <=? _) eqn:El'; [reflexivity|].
      apply Z.leb_gt in El'. lia.
Qed.

Lemma extra_rows_keep_a_group_passing_witness :
  group_status
    (process_single_group "GROUP_A" ([Samples.row_A] ++ [Samples.row_B])
       Samples.conditions) = PASS.
Proof.
  apply (extra_rows_keep_a_group_passing "GROUP_A" [Samples.row_A]
           [Samples.row_B] Samples.conditions).
  reflexivity.
Defined.

(** ** Monotonicity of the program verdict *)

(** X5.  For an ordinary program a higher measured value never turns PASS
    into FAIL; for the sentinel program it is the other way round: a lower
    measured value never turns PASS into FAIL. *)
Theorem verdict_monotone_in_measured_value
    (row row' : MergedRow) (group_conditions : list ConditionRow) :
  m_program_type row' = m_program_type row ->
  m_qty row' = m_qty row ->
  m_value row <= m_value row' ->
  (m_program_type row <> fake_picture ->
   pass_status (program_result_of_row row group_conditions) = PASS ->
   pass_status (program_result_of_row row' group_conditions) = PASS)
  /\
  (m_program_type row = fake_picture ->
   pass_status (program_result_of_row row' group_conditions) = PASS ->
   pass_status (program_result_of_row row group_conditions) = PASS).
Proof.
  intros Hp Hq Hv. split.
  - intros Hns. assert (Hns' : m_program_type row' <> fake_picture)
      by now rewrite Hp.
    rewrite (normal_row _ _ Hns), (normal_row _ _ Hns'), Hp, Hq.
    unfold handle_normal_program.
    destruct (filter _ group_conditions) as [|rule rest]; [discriminate|].
    cbn. rewrite !Z.geb_leb.
    destruct (_ <=? m_value row) eqn:E; [|discriminate].
    apply Z.leb_le in E. intros _.
    destruct (_ <=? m_value row') eqn:E'; [reflexivity|].
    apply Z.leb_gt in E'. lia.
  - intros Hs. assert (Hs' : m_program_type row' = fake_picture)
      by now rewrite Hp.
    rewrite (sentinel_row _ _ Hs), (sentinel_row _ _ Hs').
    unfold handle_fake_picture_program. rewrite !Z.gtb_ltb.
    destruct (0 <? m_value row') eqn:E'; [discriminate|].
    apply Z.ltb_ge in E'. intros _.
    destruct (0 <? m_value row) eqn:E; [|reflexivity].
    apply Z.ltb_lt in E. lia.
Qed.

Lemma verdict_monotone_in_measured_value_witness :
  pass_status
    (program_result_of_row Samples.row_A
       (filter (fun c => String.eqb (c_group c) "GROUP_A")
               Samples.conditions)) = PASS.
Proof.
  apply (proj1 (verdict_monotone_in_measured_value
                  (mkMerged "GROUP_A" 80 "PROG_001" 0 Samples.cust1 2)
                  Samples.row_A
                  (filter (fun c => String.eqb (c_group c) "GROUP_A")
                          Samples.conditions)
                  eq_refl eq_refl ltac:(cbn; lia))).
  - cbn. discriminate.
  - reflexivity.
Defined.

(** X6.  The threshold grows with the registered quantity when the rule's
    minimum is not negative and the products fit in a signed 64-bit
    integer: a program that passes with a quantity also passes, for the
    same measured value, with any smaller quantity.  Under a rule whose
    minimum is 0 every non-negative measured value passes whatever the
    quantity. *)
Theorem threshold_monotone_in_quantity
    (program_type : string) (audit_value registration_qty qty' : Z)
    (group_conditions : list ConditionRow)
    (rule : ConditionRow) (rest : list ConditionRow) :
  filter (fun c => String.eqb (c_program_type c) program_type)
         group_conditions = rule :: rest ->
  (0 <= condition_min_value rule ->
   registration_qty <= qty' ->
   in_int64 (condition_min_value rule * registration_qty) ->
   in_int64 (condition_min_value rule * qty') ->
   pass_status (handle_normal_program program_type audit_value qty'
                                      group_conditions) = PASS ->
   pass_status (handle_normal_program program_type audit_value
                                      registration_qty group_conditions)
   = PASS)
  /\
  (condition_min_value rule = 0 ->
   0 <= audit_value ->
   pass_status (handle_normal_program program_type audit_value
                                      registration_qty group_conditions)
   = PASS).
Proof.
  intros E. unfold handle_normal_program. rewrite E.
  cbn [pass_status]. rewrite !Z.geb_leb. split.
  - intros Hmin Hq Hr Hr'.
    rewrite (wrap64_exact _ Hr), (wrap64_exact _ Hr').
    destruct (_ <=? audit_value) eqn:E1; [|discriminate].
    apply Z.leb_le in E1. intros _.
    destruct (_ <=? audit_value) eqn:E2; [reflexivity|].
    apply Z.leb_gt in E2.
    assert (condition_min_value rule * registration_qty
            <= condition_min_value rule * qty')
      by (apply Z.mul_le_mono_nonneg_l; assumption).
    lia.
  - intros -> Hv. rewrite Z.mul_0_l.
    rewrite wrap64_exact by (unfold in_int64, int64_min, int64_max; lia).
    destruct (_ <=? audit_value) eqn:E1; [reflexivity|].
    apply Z.leb_gt in E1. lia.
Qed.

Lemma threshold_monotone_in_quantity_witness :
  pass_status
    (handle_normal_program "PROG_001" 90 1 Samples.conditions) = PASS.
Proof.
  apply (proj1 (threshold_monotone_in_quantity "PROG_001" 90 1 2
                  Samples.conditions
                  (mkCondition "GROUP_A" 40 5 1 "PROG_001") [] eq_refl)).
  - cbn. lia.
  - lia.
  - unfold in_int64, int64_min, int64_max. cbn. lia.
  - unfold in_int64, int64_min, int64_max. cbn. lia.
  - reflexivity.
Defined.

(** ** Shape of a customer result *)

Lemma fold_set_nodup {A V : Type} (f : A -> string) (h : A -> V) l :
  forall d : dict V,
    NoDup (keys d) ->
    NoDup (keys (fold_left (fun d x => set (f x) (h x) d) l d)).
Proof.
  induction l as [|x l IH]; intros d Hnd; simpl; [assumption|].
  apply IH. now apply nodup_keys_set.
Qed.

Lemma in_items_keys {V : Type} (d : dict V) k v : In (k, v) d -> In k (keys d).
Proof. intros H. unfold keys. apply in_map_iff. now exists (k, v). Qed.

Lemma in_keys_items {V : Type} (d : dict V) k :
  In k (keys d) -> exists v, In (k, v) d.
Proof.
  unfold keys. intros H. apply in_map_iff in H.
  destruct H as ([k' v] & <- & H). now exists v.
Qed.

Lemma customer_groups_loop_nodup merged condition_data :
  NoDup (keys (customer_groups_loop merged condition_data)).
Proof.
  unfold customer_groups_loop.
  apply (fold_set_nodup fst
           (fun g => process_single_group (fst g) (snd g) condition_data)).
  constructor.
Qed.

Lemma customer_groups_loop_keys merged condition_data g :
  In g (keys (customer_groups_loop merged condition_data)) <->
  exists m, In m merged /\ m_group m = g.
Proof.
  split.
  - intros H. apply in_keys_items in H. destruct H as [gr H].
    now apply customer_groups_loop_in in H.
  - intros H. apply (customer_groups_loop_get merged condition_data) in H.
    apply get_some_in in H. now apply in_items_keys in H.
Qed.

Lemma process_single_group_name group_name group_data condition_data :
  group (process_single_group group_name group_data condition_data)
  = group_name.
Proof.
  unfold process_single_group. destruct (filter _ condition_data);
    [reflexivity|].
  now destruct (group_loop _ group_data).
Qed.

Lemma merge_intro left right a r :
  In a left -> In r right ->
  r_customer_id r = a_customer_id a ->
  r_program_type r = a_program_type a ->
  In (mkMerged (a_group a) (a_value a) (a_program_type a) (a_audit_date a)
               (a_customer_id a) (qty r))
     (merge left right).
Proof.
  intros Ha Hr Hc Hp. unfold merge. apply in_flat_map. exists a.
  split; [assumption|]. apply in_map_iff. exists r. split; [reflexivity|].
  apply filter_In. split; [assumption|].
  now rewrite Hc, Hp, !String.eqb_refl.
Qed.

Lemma process_single_customer_merged_nil
    cid customer_audit condition_data registration_data :
  group_results (process_single_customer cid customer_audit condition_data
                                         registration_data) = empty ->
  merge customer_audit
        (filter (fun r => String.eqb (r_customer_id r) cid) registration_data)
  = [].
Proof.
  intros He.
  destruct (merge customer_audit _) as [|m merged] eqn:Em; [reflexivity|].
  exfalso.
  destruct (process_single_customer_cases cid customer_audit condition_data
              registration_data) as [(_ & _ & Hr)|(_ & Hres)].
  - unfold process_single_customer in Hr.
    destruct (filter _ registration_data) as [|r regs].
    + unfold merge in Em. clear - Em.
      induction customer_audit; simpl in Em; [discriminate | auto].
    + rewrite Em in Hr. now cbn in Hr.
  - rewrite Hres, Em in He. cbn [group_results] in He.
    assert (Hk : In (m_group m)
                    (keys (customer_groups_loop (m :: merged)
                                                condition_data))).
    { apply customer_groups_loop_keys. exists m. split; [now left|easy]. }
    rewrite He in Hk. destruct Hk.
Qed.

Lemma process_single_customer_group_keys
    cid customer_audit condition_data registration_data g :
  In g (keys (group_results
                (process_single_customer cid customer_audit condition_data
                                         registration_data))) <->
  exists m,
    In m (merge customer_audit
            (filter (fun r => String.eqb (r_customer_id r) cid)
                    registration_data)) /\
    m_group m = g.
Proof.
  destruct (process_single_customer_cases cid customer_audit condition_data
              registration_data) as [(He & _)|(_ & Hres)].
  - rewrite He.
    rewrite (process_single_customer_merged_nil _ _ _ _ He).
    split; [intros [] | intros (m & [] & _)].
  - rewrite Hres. cbn [group_results]. apply customer_groups_loop_keys.
Qed.

(** X7.  Shape of a customer result.  It records the customer it was
    computed for; its group dictionary has one entry per group in which
    the customer has a matched row, and no other; each entry records the
    group it is stored under and is the group evaluation of that group's
    matched rows; and the reason is PROCESSED exactly when there is at
    least one group entry. *)
Theorem customer_result_shape
    (cid : string) (customer_audit : list AuditRow)
    (condition_data : list ConditionRow)
    (registration_data : list RegistrationRow) :
  let result :=
    process_single_customer cid customer_audit condition_data
                            registration_data in
  let merged :=
    merge customer_audit
          (filter (fun r => String.eqb (r_customer_id r) cid)
                  registration_data) in
  customer_id result = cid /\
  NoDup (keys (group_results result)) /\
  (forall g, In g (keys (group_results result)) <->
             exists m, In m merged /\ m_group m = g) /\
  (forall g gr, In (g, gr) (items (group_results result)) ->
                group gr = g /\
                gr = process_single_group g
                       (filter (fun m => String.eqb (m_group m) g) merged)
                       condition_data) /\
  (customer_reason result = PROCESSED <-> group_results result <> empty).
Proof.
  intros result merged.
  assert (Hid : customer_id result = cid).
  { subst result. unfold process_single_customer.
    destruct (filter _ registration_data); [reflexivity|].
    now destruct (merge customer_audit _). }
  split; [exact Hid | split; [|split; [|split]]].
  - destruct (process_single_customer_cases cid customer_audit
                condition_data registration_data) as [(He & _)|(_ & Hres)];
      fold result in He || fold result in Hres.
    + rewrite He. constructor.
    + rewrite Hres. apply customer_groups_loop_nodup.
  - intros g. apply process_single_customer_group_keys.
  - intros g gr Hin.
    destruct (process_single_customer_cases cid customer_audit
                condition_data registration_data) as [(He & _)|(_ & Hres)];
      fold result in He || fold result merged in Hres.
    + rewrite He in Hin. destruct Hin.
    + rewrite Hres in Hin. cbn [group_results] in Hin. unfold items in Hin.
      apply customer_groups_loop_in in Hin. destruct Hin as [_ ->].
      split; [apply process_single_group_name | reflexivity].
  - destruct (process_single_customer_cases cid customer_audit
                condition_data registration_data)
      as [(He & _ & Hr)|(Hm & Hres)];
      fold result in He, Hr || fold result merged in Hm, Hres.
    + split; [intros H; contradiction | intros H; now contradiction H].
    + split; [|intros _; now rewrite Hres].
      intros _ He. apply Hm.
      now apply (process_single_customer_merged_nil cid customer_audit
                   condition_data registration_data).
Qed.

Lemma customer_result_shape_witness :
  keys (group_results
          (process_single_customer Samples.cust1 Samples.veto_audit
             Samples.conditions Samples.veto_registrations))
  <> [].
Proof.
  destruct (customer_result_shape Samples.cust1 Samples.veto_audit
              Samples.conditions Samples.veto_registrations)
    as (_ & _ & Hk & _).
  intros He.
  assert (H : In "GROUP_A"
                 (keys (group_results
                          (process_single_customer Samples.cust1
                             Samples.veto_audit Samples.conditions
                             Samples.veto_registrations)))).
  { apply Hk. eexists. split; [left; reflexivity | reflexivity]. }
  rewrite He in H. destruct H.
Defined.

Lemma customer_group_without_rules
    (cid : string) (customer_audit : list AuditRow)
    (condition_data : list ConditionRow)
    (registration_data : list RegistrationRow)
    (a : AuditRow) (r : RegistrationRow) :
  In a customer_audit -> In r registration_data ->
  a_customer_id a = cid -> r_customer_id r = cid ->
  r_program_type r = a_program_type a ->
  (forall c, In c condition_data -> c_group c <> a_group a) ->
  let result :=
    process_single_customer cid customer_audit condition_data
                            registration_data in
  get (a_group a) (group_results result) =
  Some (mkGroupResult (a_group a) FAIL (Some NO_CONDITIONS) None None empty)
  /\ overall_status result = FAIL
  /\ customer_reason result = PROCESSED.
Proof.
  intros Ha Hr Hca Hcr Hp Hnone result.
  set (regs := filter (fun r => String.eqb (r_customer_id r) cid)
                      registration_data).
  assert (Hm : In (mkMerged (a_group a) (a_value a) (a_program_type a)
                            (a_audit_date a) (a_customer_id a) (qty r))
                  (merge customer_audit regs)).
  { apply merge_intro; try assumption; [|congruence].
    apply filter_In. split; [assumption|].
    rewrite Hcr. apply String.eqb_refl. }
  destruct (process_single_customer_cases cid customer_audit condition_data
              registration_data) as [(He & _)|(_ & Hres)].
  - exfalso. fold result in He.
    apply process_single_customer_merged_nil in He. fold regs in He.
    rewrite He in Hm. destruct Hm.
  - fold result regs in Hres. rewrite Hres.
    cbn [group_results overall_status customer_reason].
    assert (Hget : get (a_group a)
                       (customer_groups_loop (merge customer_audit regs)
                                             condition_data) =
                   Some (mkGroupResult (a_group a) FAIL (Some NO_CONDITIONS)
                                       None None empty)).
    { rewrite customer_groups_loop_get
        by (eexists; split; [exact Hm | reflexivity]).
      rewrite process_single_group_no_conditions; [reflexivity|].
      apply filter_nil_iff. intros c Hc. apply String.eqb_neq.
      now apply Hnone. }
    split; [exact Hget | split; [|reflexivity]].
    apply determine_overall_status_fail.
    eexists. eexists. split; [apply get_some_in; exact Hget | reflexivity].
Qed.

(** X8.  A matched row in a group that has no rule at all fails the
    customer: the group is stored as FAIL with reason NO_CONDITIONS and
    without any program verdict, and the overall status is FAIL with
    reason PROCESSED, whatever the customer's other groups are. *)
Theorem group_without_rules_fails_customer
    (cid : string) (customer_audit : list AuditRow)
    (condition_data : list ConditionRow)
    (registration_data : list RegistrationRow)
    (a : AuditRow) (r : RegistrationRow) :
  In a customer_audit -> In r registration_data ->
  a_customer_id a = cid -> r_customer_id r = cid ->
  r_program_type r = a_program_type a ->
  (forall c, In c condition_data -> c_group c <> a_group a) ->
  let result :=
    process_single_customer cid customer_audit condition_data
                            registration_data in
  get (a_group a) (group_results result) =
  Some (mkGroupResult (a_group a) FAIL (Some NO_CONDITIONS) None None empty)
  /\ overall_status result = FAIL
  /\ customer_reason result = PROCESSED.
Proof.
  intros Ha Hr Hca Hcr Hp Hnone.
  now apply customer_group_without_rules with (r := r).
Qed.

Lemma group_without_rules_fails_customer_witness :
  overall_status
    (process_single_customer Samples.cust1
       [mkAudit "GROUP_Z" 50 "PROG_001" 0 Samples.cust1]
       Samples.conditions Samples.plain_registrations) = FAIL.
Proof.
  apply (group_without_rules_fails_customer Samples.cust1
           [mkAudit "GROUP_Z" 50 "PROG_001" 0 Samples.cust1]
           Samples.conditions Samples.plain_registrations
           (mkAudit "GROUP_Z" 50 "PROG_001" 0 Samples.cust1)
           (mkRegistration "PROG_001" 1 Samples.cust1)
           (or_introl eq_refl) (or_introl eq_refl)
           eq_refl eq_refl eq_refl).
  intros c Hin. cbn in Hin.
  destruct Hin as [<-|[<-|[<-|[]]]]; cbn; discriminate.
Defined.

(** ** What a customer result depends on *)

Lemma merge_filter_left (keep : AuditRow -> bool) left right :
  (forall a r, In a left -> In r right ->
               r_customer_id r = a_customer_id a ->
               r_program_type r = a_program_type a -> keep a = true) ->
  merge (filter keep left) right = merge left right.
Proof.
  intros Hkeep. unfold merge. induction left as [|a left IH]; [reflexivity|].
  cbn [filter flat_map].
  assert (IH' : flat_map
                  (fun a =>
                     map (fun r =>
                            mkMerged (a_group a) (a_value a)
                                     (a_program_type a) (a_audit_date a)
                                     (a_customer_id a) (qty r))
                         (filter (fun r =>
                                    String.eqb (r_customer_id r)
                                               (a_customer_id a)
                                    && String.eqb (r_program_type r)
                                                  (a_program_type a))
                                 right))
                  (filter keep left) = merge left right).
  { apply IH. intros a' r Ha'. apply Hkeep. now right. }
  unfold merge in IH'. destruct (keep a) eqn:E.
  - cbn [flat_map]. now rewrite IH'.
  - replace (filter _ right) with (@nil RegistrationRow); [exact IH'|].
    symmetry. apply filter_nil_iff. intros r Hr.
    destruct (String.eqb (r_customer_id r) (a_customer_id a)) eqn:E1;
      [|reflexivity].
    destruct (String.eqb (r_program_type r) (a_program_type a)) eqn:E2;
      [|reflexivity].
    apply String.eqb_eq in E1, E2.
    rewrite (Hkeep a r (or_introl eq_refl) Hr E1 E2) in E. discriminate.
Qed.

(** X9.  Audit rows that match no registration of the customer are
    ignored: removing from the customer's audit rows any rows that join
    with none of the customer's registrations leaves the whole result
    unchanged. *)
Theorem unmatched_audit_rows_are_ignored
    (cid : string) (customer_audit : list AuditRow)
    (condition_data : list ConditionRow)
    (registration_data : list RegistrationRow) (keep : AuditRow -> bool) :
  (forall a r, In a customer_audit -> In r registration_data ->
               r_customer_id r = cid -> a_customer_id a = cid ->
               r_program_type r = a_program_type a -> keep a = true) ->
  process_single_customer cid (filter keep customer_audit) condition_data
                          registration_data =
  process_single_customer cid customer_audit condition_data
                          registration_data.
Proof.
  intros Hkeep. unfold process_single_customer.
  rewrite merge_filter_left; [reflexivity|].
  intros a r Ha Hr Hc Hp. apply filter_In in Hr. destruct Hr as [Hr Hcid].
  apply String.eqb_eq in Hcid. apply (Hkeep a r Ha Hr Hcid); congruence.
Qed.

Lemma unmatched_audit_rows_are_ignored_witness :
  process_single_customer Samples.cust1
    (filter (fun a => String.eqb (a_program_type a) "PROG_002")
            Samples.clean_audit)
    Samples.conditions Samples.clean_registrations =
  process_single_customer Samples.cust1 Samples.clean_audit
    Samples.conditions Samples.clean_registrations.
Proof.
  apply (unmatched_audit_rows_are_ignored Samples.cust1 Samples.clean_audit
           Samples.conditions Samples.clean_registrations
           (fun a => String.eqb (a_program_type a) "PROG_002")).
  intros a r _ [<-|[]] _ _ Hp. rewrite <- Hp. reflexivity.
Defined.

Lemma process_single_group_rules group_name group_data conds conds' :
  filter (fun c => String.eqb (c_group c) group_name) conds =
  filter (fun c => String.eqb (c_group c) group_name) conds' ->
  process_single_group group_name group_data conds =
  process_single_group group_name group_data conds'.
Proof. intros H. unfold process_single_group. now rewrite H. Qed.

Lemma fold_left_ext_in {A B : Type} (f f' : A -> B -> A) (l : list B) :
  (forall x a, In x l -> f a x = f' a x) ->
  forall a, fold_left f l a = fold_left f' l a.
Proof.
  induction l as [|x l IH]; intros H a; simpl; [reflexivity|].
  rewrite (H x a (or_introl eq_refl)). apply IH.
  intros y b Hy. apply H. now right.
Qed.

(** X10.  Only the rules of groups in which the customer has a matched
    row are consulted: two rule tables that agree on the rules of each
    such group give the same customer result. *)
Theorem rules_of_other_groups_are_ignored
    (cid : string) (customer_audit : list AuditRow)
    (conds conds' : list ConditionRow)
    (registration_data : list RegistrationRow) :
  (forall m,
      In m (merge customer_audit
              (filter (fun r => String.eqb (r_customer_id r) cid)
                      registration_data)) ->
      filter (fun c => String.eqb (c_group c) (m_group m)) conds =
      filter (fun c => String.eqb (c_group c) (m_group m)) conds') ->
  process_single_customer cid customer_audit conds registration_data =
  process_single_customer cid customer_audit conds' registration_data.
Proof.
  intros Hrules. unfold process_single_customer.
  destruct (filter _ registration_data) as [|r regs]; [reflexivity|].
  destruct (merge customer_audit (r :: regs)) as [|m merged] eqn:Em;
    [reflexivity|].
  assert (Hloop : customer_groups_loop (m :: merged) conds =
                  customer_groups_loop (m :: merged) conds').
  { unfold customer_groups_loop. apply fold_left_ext_in.
    intros g d Hg. unfold groupby in Hg. apply in_map_iff in Hg.
    destruct Hg as (k & <- & Hk). cbn [fst snd].
    apply in_group_keys in Hk. destruct Hk as (m' & Hm' & <-).
    f_equal. apply process_single_group_rules. now apply Hrules. }
  cbv zeta. now rewrite Hloop.
Qed.

Lemma rules_of_other_groups_are_ignored_witness :
  process_single_customer Samples.cust1 Samples.veto_audit
    Samples.conditions Samples.veto_registrations =
  process_single_customer Samples.cust1 Samples.veto_audit
    (mkCondition "GROUP_C" 7 1 3 "PROG_001" :: Samples.conditions)
    Samples.veto_registrations.
Proof.
  apply (rules_of_other_groups_are_ignored Samples.cust1 Samples.veto_audit
           Samples.conditions
           (mkCondition "GROUP_C" 7 1 3 "PROG_001" :: Samples.conditions)
           Samples.veto_registrations).
  intros m Hm. cbn in Hm. destruct Hm as [<-|[<-|[]]]; reflexivity.
Defined.

(** ** Shape of the batch result *)

Lemma compare_lt_trans a b c :
  String.compare a b = Lt -> String.compare b c = Lt ->
  String.compare a c = Lt.
Proof.
  intros H1 H2.
  apply OrderedTypeEx.String_as_OT.cmp_lt in H1, H2.
  apply OrderedTypeEx.String_as_OT.cmp_lt.
  eapply OrderedTypeEx.String_as_OT.lt_trans; eassumption.
Qed.

Lemma compare_lt_irrefl a : String.compare a a <> Lt.
Proof.
  intros H. pose proof (String.compare_antisym a a) as Ha.
  rewrite H in Ha. discriminate.
Qed.

Lemma compare_gt_lt a b : String.compare a b = Gt -> String.compare b a = Lt.
Proof. intros H. rewrite String.compare_antisym, H. reflexivity. Qed.

Lemma insert_key_sorted k ks :
  StronglySorted (fun a b => String.compare a b = Lt) ks ->
  StronglySorted (fun a b => String.compare a b = Lt) (insert_key k ks).
Proof.
  induction ks as [|k' ks IH]; intros Hs; simpl.
  - repeat constructor.
  - inversion Hs as [|? ? Hs' Hall]; subst.
    destruct (String.compare k k') eqn:E.
    + assumption.
    + constructor; [assumption|]. constructor; [assumption|].
      eapply Forall_impl; [|exact Hall].
      intros x Hx. cbn in Hx. now apply (compare_lt_trans k k' x).
    + constructor; [now apply IH|].
      apply Forall_forall. intros x Hx. apply in_insert_key in Hx.
      destruct Hx as [->|Hx]; [now apply compare_gt_lt|].
      rewrite Forall_forall in Hall. now apply Hall.
Qed.

Lemma group_keys_sorted {A : Type} (key : A -> string) rows :
  StronglySorted (fun a b => String.compare a b = Lt) (group_keys key rows).
Proof.
  unfold group_keys. induction rows as [|r rows IH]; simpl.
  - constructor.
  - now apply insert_key_sorted.
Qed.

Lemma sorted_keys_nodup ks :
  StronglySorted (fun a b => String.compare a b = Lt) ks -> NoDup ks.
Proof.
  induction 1 as [|k ks Hs IH Hall]; constructor; [|assumption].
  intros Hin. rewrite Forall_forall in Hall.
  now apply (compare_lt_irrefl k), Hall.
Qed.

Lemma collect_keys {A V : Type} (P : string -> list A -> V)
    (G : string -> list A) ks :
  forall d0 : dict V,
    NoDup ks ->
    (forall k, In k ks -> ~ In k (keys d0)) ->
    keys (fold_left (fun d g => set (fst g) (P (fst g) (snd g)) d)
                    (map (fun k => (k, G k)) ks) d0)
    = (keys d0 ++ ks)%list.
Proof.
  induction ks as [|k ks IH]; intros d0 Hnd Hfresh; simpl.
  - now rewrite app_nil_r.
  - inversion Hnd as [|? ? Hnot Hnd']; subst.
    rewrite IH; [|assumption|].
    + rewrite set_fresh by (apply Hfresh; now left).
      unfold keys. rewrite map_app. simpl. now rewrite <- app_assoc.
    + intros k' Hk' Hin. apply in_keys_set in Hin.
      destruct Hin as [->|Hin]; [contradiction|].
      apply (Hfresh k'); [now right | assumption].
Qed.

Lemma batch_keys audit_data condition_data registration_data :
  keys (process_audit_for_all_customers audit_data condition_data
                                        registration_data)
  = group_keys a_customer_id audit_data.
Proof.
  unfold process_audit_for_all_customers, groupby.
  rewrite (collect_keys
             (fun cid rows =>
                process_single_customer cid rows condition_data
                                        registration_data)
             (fun k => filter (fun r => String.eqb (a_customer_id r) k)
                              audit_data)).
  - reflexivity.
  - apply sorted_keys_nodup, group_keys_sorted.
  - intros k _ [].
Qed.

Lemma process_single_customer_id
    cid customer_audit condition_data registration_data :
  customer_id (process_single_customer cid customer_audit condition_data
                                       registration_data) = cid.
Proof.
  unfold process_single_customer.
  destruct (filter _ registration_data); [reflexivity|].
  now destruct (merge customer_audit _).
Qed.

(** X11.  Shape of the batch result.  The result dictionary lists the
    audited customers in strictly increasing order of customer id, each
    once; a customer id is a key iff it occurs in the audit table; and each
    entry records its own key and is the evaluation of that customer's
    audit rows. *)
Theorem batch_results_shape
    (audit_data : list AuditRow) (condition_data : list ConditionRow)
    (registration_data : list RegistrationRow) :
  let all_results :=
    process_audit_for_all_customers audit_data condition_data
                                    registration_data in
  StronglySorted (fun a b => String.compare a b = Lt) (keys all_results) /\
  NoDup (keys all_results) /\
  (forall cid, In cid (keys all_results) <->
               exists a, In a audit_data /\ a_customer_id a = cid) /\
  (forall cid result,
      In (cid, result) (items all_results) ->
      customer_id result = cid /\
      result =
      process_single_customer cid
        (filter (fun a => String.eqb (a_customer_id a) cid) audit_data)
        condition_data registration_data).
Proof.
  intros all_results. subst all_results. rewrite batch_keys.
  split; [apply group_keys_sorted | split; [|split]].
  - apply sorted_keys_nodup, group_keys_sorted.
  - intros cid. apply in_group_keys.
  - intros cid result Hin. unfold items, process_audit_for_all_customers in Hin.
    apply (groupby_in a_customer_id audit_data
             (fun cid rows =>
                process_single_customer cid rows condition_data
                                        registration_data)) in Hin.
    destruct Hin as [_ ->]. split; [apply process_single_customer_id|].
    reflexivity.
Qed.

Lemma batch_results_shape_witness :
  customer_id
    (process_single_customer Samples.cust2
       (filter (fun a => String.eqb (a_customer_id a) Samples.cust2)
               Samples.lonely_audit)
       Samples.conditions Samples.lonely_registrations) = Samples.cust2.
Proof.
  destruct (batch_results_shape Samples.lonely_audit Samples.conditions
              Samples.lonely_registrations) as (_ & _ & _ & H).
  destruct (H Samples.cust2
              (process_single_customer Samples.cust2
                 (filter (fun a => String.eqb (a_customer_id a) Samples.cust2)
                         Samples.lonely_audit)
                 Samples.conditions Samples.lonely_registrations)) as [Hid _].
  - left. reflexivity.
  - exact Hid.
Defined.

(** X12.  Customers are evaluated independently: the entry of a customer
    in the batch result depends only on that customer's audit rows and
    registration rows.  Two period inputs with the same rule table that
    agree on both slices give the customer the same entry (or no entry in
    both). *)
Theorem customers_are_evaluated_independently
    (audit_data audit_data' : list AuditRow)
    (condition_data : list ConditionRow)
    (registration_data registration_data' : list RegistrationRow)
    (cid : string) :
  filter (fun a => String.eqb (a_customer_id a) cid) audit_data =
  filter (fun a => String.eqb (a_customer_id a) cid) audit_data' ->
  filter (fun r => String.eqb (r_customer_id r) cid) registration_data =
  filter (fun r => String.eqb (r_customer_id r) cid) registration_data' ->
  get cid (process_audit_for_all_customers audit_data condition_data
                                           registration_data) =
  get cid (process_audit_for_all_customers audit_data' condition_data
                                           registration_data').
Proof.
  intros Ha Hr.
  destruct (filter (fun a => String.eqb (a_customer_id a) cid) audit_data)
    as [|a rows] eqn:E.
  - symmetry in Ha.
    rewrite !batch_get_none; [reflexivity | |];
      intros a Hin; apply String.eqb_neq.
    + now apply (proj1 (filter_nil_iff _ _) Ha).
    + now apply (proj1 (filter_nil_iff _ _) E).
  - pose proof (filter_head_in _ _ _ _ E) as Hin.
    pose proof (filter_head_in _ _ _ _ (eq_sym Ha)) as Hin'.
    cbn beta in Hin, Hin'.
    destruct Hin as [Hin Hc]. destruct Hin' as [Hin' _].
    apply String.eqb_eq in Hc.
    rewrite !batch_get by (exists a; now split).
    rewrite <- Ha, E. unfold process_single_customer. now rewrite Hr.
Qed.

Lemma customers_are_evaluated_independently_witness :
  get Samples.cust2
    (process_audit_for_all_customers Samples.lonely_audit Samples.conditions
       Samples.lonely_registrations) =
  get Samples.cust2
    (process_audit_for_all_customers
       (Samples.veto_audit ++ Samples.lonely_audit) Samples.conditions
       (Samples.veto_registrations ++ Samples.lonely_registrations)).
Proof.
  apply (customers_are_evaluated_independently Samples.lonely_audit
           (Samples.veto_audit ++ Samples.lonely_audit) Samples.conditions
           Samples.lonely_registrations
           (Samples.veto_registrations ++ Samples.lonely_registrations)
           Samples.cust2); reflexivity.
Defined.

(** ** Statistics written on the customer row *)

Lemma count_pass_all {A : Type} (status : A -> Status) l :
  count_pass status l = Z.of_nat (List.length l) <->
  forall x, In x l -> status x = PASS.
Proof.
  induction l as [|x l IH].
  - split; [intros _ y [] | reflexivity].
  - rewrite count_pass_cons. cbn [List.length].
    pose proof (count_pass_bounds status l) as Hb. split.
    + intros H y [<-|Hy].
      * destruct (status x); [reflexivity | lia].
      * apply IH; [|assumption]. destruct (status x); lia.
    + intros H. rewrite (H x (or_introl eq_refl)).
      assert (Hl : count_pass status l = Z.of_nat (List.length l)).
      { apply IH. intros y Hy. apply H. now right. }
      lia.
Qed.

Lemma sum_Z_bounds {A : Type} (f g : A -> Z) l :
  (forall x, In x l -> 0 <= f x <= g x) ->
  0 <= sum_Z (map f l) <= sum_Z (map g l).
Proof.
  unfold sum_Z. induction l as [|x l IH]; intros H; simpl; [lia|].
  pose proof (H x (or_introl eq_refl)).
  assert (0 <= fold_right Z.add 0 (map f l)
          <= fold_right Z.add 0 (map g l))
    by (apply IH; intros y Hy; apply H; now right).
  lia.
Qed.

Lemma determine_overall_status_count (d : dict GroupResult) :
  determine_overall_status d = PASS <->
  count_pass group_status (values d) = Z.of_nat (List.length d).
Proof.
  rewrite determine_overall_status_pass.
  rewrite <- (length_map snd d). fold (values d). rewrite count_pass_all.
  unfold items, values. split.
  - intros H gr Hin. apply in_map_iff in Hin.
    destruct Hin as ([g gr'] & <- & Hin). now apply (H g gr').
  - intros H g gr Hin. apply H. apply in_map_iff. now exists (g, gr).
Qed.

(** X13.  Statistics of an evaluated customer.  On the customer row the
    passed groups are between 0 and the total groups and the passed
    programs between 0 and the total programs; the overall status is PASS
    iff there is at least one group and all groups passed; and there is no
    group at all iff the reason is not PROCESSED (a customer without
    registration or without matching audit). *)
Theorem customer_row_statistics
    (cid : string) (customer_audit : list AuditRow)
    (condition_data : list ConditionRow)
    (registration_data : list RegistrationRow) :
  let row :=
    customer_data_row cid
      (process_single_customer cid customer_audit condition_data
                               registration_data) in
  0 <= cd_passed_groups row <= cd_total_groups row /\
  0 <= cd_passed_programs row <= cd_total_programs row /\
  (cd_overall_status row = PASS <->
   1 <= cd_total_groups row /\ cd_passed_groups row = cd_total_groups row) /\
  (cd_total_groups row = 0 <-> cd_reason row <> PROCESSED).
Proof.
  cbn zeta.
  cbn [customer_data_row cd_passed_groups cd_total_groups cd_passed_programs
       cd_total_programs cd_overall_status cd_reason].
  set (result := process_single_customer cid customer_audit condition_data
                                         registration_data).
  split; [|split; [|split]].
  - pose proof (count_pass_bounds group_status
                  (values (group_results result))) as Hb.
    unfold values in *. now rewrite length_map in Hb.
  - apply (sum_Z_bounds
             (fun gr => count_pass pass_status (values (program_results gr)))
             (fun gr => Z.of_nat (List.length (program_results gr)))).
    intros gr _.
    pose proof (count_pass_bounds pass_status
                  (values (program_results gr))) as Hb.
    unfold values in *. now rewrite length_map in Hb.
  - destruct (process_single_customer_cases cid customer_audit
                condition_data registration_data)
      as [(He & Hs & _)|(Hm & Hres)]; fold result in He, Hs || fold result in Hres.
    + rewrite He, Hs. cbn. split; [discriminate | lia].
    + rewrite Hres. cbn [overall_status group_results].
      rewrite determine_overall_status_count. split; [|intros [_ H]; exact H].
      intros H. split; [|exact H].
      destruct (customer_groups_loop _ condition_data) as [|x d] eqn:Ed;
        [|cbn [List.length]; lia].
      exfalso. apply Hm.
      apply (process_single_customer_merged_nil cid customer_audit
               condition_data registration_data).
      fold result. rewrite Hres. reflexivity.
  - destruct (process_single_customer_cases cid customer_audit
                condition_data registration_data)
      as [(He & _ & Hr)|(Hm & Hres)]; fold result in He, Hr || fold result in Hres.
    + rewrite He. cbn. split; [intros _; exact Hr | reflexivity].
    + rewrite Hres. cbn [customer_reason group_results].
      split; [|intros H; now contradiction H].
      intros H0. exfalso. apply Hm.
      apply (process_single_customer_merged_nil cid customer_audit
               condition_data registration_data).
      fold result. rewrite Hres. cbn [group_results].
      destruct (customer_groups_loop _ condition_data); [reflexivity|].
      cbn [List.length] in H0. lia.
Qed.

Lemma customer_row_statistics_witness :
  cd_overall_status
    (customer_data_row Samples.cust1
       (process_single_customer Samples.cust1 Samples.veto_audit
          Samples.conditions Samples.veto_registrations)) = PASS.
Proof.
  destruct (customer_row_statistics Samples.cust1 Samples.veto_audit
              Samples.conditions Samples.veto_registrations)
    as (_ & _ & H & _).
  apply H. vm_compute. split; [discriminate | reflexivity].
Defined.

(** ** Saving the results *)

Lemma group_data_row_none cid g gr :
  group_data_row cid g gr = None <->
  passed_programs gr = None \/ required_programs gr = None.
Proof.
  unfold group_data_row.
  destruct (passed_programs gr), (required_programs gr); split;
    try discriminate; auto; intros [H|H]; discriminate.
Qed.

Lemma save_groups_none cid groups :
  save_groups cid groups = None <->
  exists g gr, In (g, gr) groups /\ group_data_row cid g gr = None.
Proof.
  induction groups as [|[g gr] groups IH]; simpl.
  - split; [discriminate | intros (g & gr & [] & _)].
  - destruct (group_data_row cid g gr) as [row|] eqn:E.
    + destruct (save_groups cid groups) as [[gd pd]|]; split.
      * discriminate.
      * intros (g' & gr' & [Heq|Hin] & Hn).
        -- inversion Heq; subst. congruence.
        -- assert (Hex : exists g gr, In (g, gr) groups /\
                                      group_data_row cid g gr = None)
             by (exists g', gr'; now split).
           apply IH in Hex. discriminate.
      * intros _. destruct (proj1 IH eq_refl) as (g' & gr' & Hin & Hn).
        exists g', gr'. split; [now right | assumption].
      * reflexivity.
    + split; [|reflexivity]. intros _. exists g, gr. split; [now left|easy].
Qed.

Lemma save_results_none all_results :
  save_results_to_database all_results = None <->
  exists cid result g gr,
    In (cid, result) all_results /\
    In (g, gr) (items (group_results result)) /\
    (passed_programs gr = None \/ required_programs gr = None).
Proof.
  induction all_results as [|[cid result] rest IH]; simpl.
  - split; [discriminate | intros (c & r & g & gr & [] & _)].
  - destruct (save_groups cid (items (group_results result)))
      as [[gd pd]|] eqn:E.
    + assert (Hno : forall g gr, In (g, gr) (items (group_results result)) ->
                      ~ (passed_programs gr = None \/
                         required_programs gr = None)).
      { intros g gr Hin Hn. apply (group_data_row_none cid g gr) in Hn.
        assert (Hex : exists g gr,
                   In (g, gr) (items (group_results result)) /\
                   group_data_row cid g gr = None)
          by (exists g, gr; now split).
        apply save_groups_none in Hex. congruence. }
      destruct (save_results_to_database rest) as [[[cd gd'] pd']|]; split.
      * discriminate.
      * intros (c & r & g & gr & [Heq|Hin] & Hg & Hn).
        -- inversion Heq; subst. now destruct (Hno g gr Hg).
        -- assert (Hex : exists cid result g gr,
                      In (cid, result) rest /\
                      In (g, gr) (items (group_results result)) /\
                      (passed_programs gr = None \/
                       required_programs gr = None))
             by (exists c, r, g, gr; now repeat split).
           apply IH in Hex. discriminate.
      * intros _.
        destruct (proj1 IH eq_refl) as (c & r & g & gr & Hin & Hg & Hn).
        exists c, r, g, gr. repeat split; [now right | assumption..].
      * reflexivity.
    + split; [|reflexivity]. intros _.
      apply save_groups_none in E. destruct E as (g & gr & Hin & Hn).
      apply group_data_row_none in Hn.
      exists cid, result, g, gr. repeat split; [now left | assumption..].
Qed.

Lemma merge_in_group left right m :
  In m (merge left right) ->
  exists a r,
    In a left /\ In r right /\
    r_customer_id r = a_customer_id a /\
    r_program_type r = a_program_type a /\
    m_group m = a_group a.
Proof.
  unfold merge. rewrite in_flat_map. intros (a & Ha & Hm).
  apply in_map_iff in Hm. destruct Hm as (r & <- & Hr).
  apply filter_In in Hr. destruct Hr as [Hr Hk].
  apply andb_true_iff in Hk. destruct Hk as [Hc Hp].
  apply String.eqb_eq in Hc, Hp.
  exists a, r. repeat split; assumption.
Qed.

Lemma process_single_group_counters group_name group_data condition_data :
  (passed_programs
     (process_single_group group_name group_data condition_data) = None \/
   required_programs
     (process_single_group group_name group_data condition_data) = None) <->
  forall c, In c condition_data -> c_group c <> group_name.
Proof.
  destruct (filter (fun c => String.eqb (c_group c) group_name)
                   condition_data) as [|first rest] eqn:E.
  - rewrite (process_single_group_no_conditions _ _ _ E). cbn.
    split; [|now left]. intros _ c Hc. apply String.eqb_neq.
    now apply (proj1 (filter_nil_iff _ _) E).
  - rewrite (process_single_group_with_conditions _ _ _ _ _ E). cbn.
    split; [intros [H|H]; discriminate|].
    intros H. apply filter_head_in in E. destruct E as [Hin Hg].
    apply String.eqb_eq in Hg. now destruct (H first Hin).
Qed.

(** X14.  When saving fails.  Preparing the rows of a batch result raises
    (and nothing is written) iff some audit row joins with a registration
    of the same customer on the program while the rule table has no rule
    for the audit row's group: one rule-less group of one customer makes
    the whole save fail. *)
Theorem save_fails_iff_rule_less_group
    (audit_data : list AuditRow) (condition_data : list ConditionRow)
    (registration_data : list RegistrationRow) :
  save_results_to_database
    (process_audit_for_all_customers audit_data condition_data
                                     registration_data) = None
  <->
  exists a r,
    In a audit_data /\ In r registration_data /\
    r_customer_id r = a_customer_id a /\
    r_program_type r = a_program_type a /\
    forall c, In c condition_data -> c_group c <> a_group a.
Proof.
  rewrite save_results_none. split.
  - intros (cid & result & g & gr & Hin & Hg & Hn).
    unfold process_audit_for_all_customers in Hin.
    apply (groupby_in a_customer_id audit_data
             (fun cid rows =>
                process_single_customer cid rows condition_data
                                        registration_data)) in Hin.
    destruct Hin as [_ ->].
    match type of Hg with
    | In _ (items (group_results
                     (process_single_customer _ ?ca _ _))) =>
        destruct (process_single_customer_cases cid ca condition_data
                    registration_data) as [(He & _)|(_ & Hres)]
    end.
    + rewrite He in Hg. destruct Hg.
    + rewrite Hres in Hg. cbn [group_results] in Hg. unfold items in Hg.
      apply customer_groups_loop_in in Hg.
      destruct Hg as [(m & Hm & Hgm) ->].
      pose proof (proj1 (process_single_group_counters _ _ _) Hn) as Hnone.
      apply merge_in_group in Hm.
      destruct Hm as (a & r & Ha & Hr & Hc & Hp & Hma).
      apply filter_In in Ha, Hr. destruct Ha as [Ha _], Hr as [Hr _].
      exists a, r. repeat split; try assumption.
      rewrite <- Hma, Hgm. exact Hnone.
  - intros (a & r & Ha & Hr & Hc & Hp & Hn).
    set (cid := a_customer_id a).
    set (rows := filter (fun a' => String.eqb (a_customer_id a') cid)
                        audit_data).
    exists cid, (process_single_customer cid rows condition_data
                                         registration_data),
      (a_group a),
      (mkGroupResult (a_group a) FAIL (Some NO_CONDITIONS) None None empty).
    split; [|split; [|now left]].
    + apply get_some_in. apply batch_get. now exists a.
    + apply get_some_in.
      apply (customer_group_without_rules cid rows condition_data
               registration_data a r); try assumption; try reflexivity.
      subst rows. apply filter_In. split; [assumption|].
      apply String.eqb_refl.
Qed.

Lemma save_fails_iff_rule_less_group_witness :
  save_results_to_database
    (process_audit_for_all_customers
       (mkAudit "GROUP_Z" 50 "PROG_001" 0 Samples.cust1
        :: Samples.lonely_audit)
       Samples.conditions
       (Samples.plain_registrations ++ Samples.lonely_registrations))
  = None.
Proof.
  apply (proj2 (save_fails_iff_rule_less_group
                  (mkAudit "GROUP_Z" 50 "PROG_001" 0 Samples.cust1
                   :: Samples.lonely_audit)
                  Samples.conditions
                  (Samples.plain_registrations
                   ++ Samples.lonely_registrations))).
  exists (mkAudit "GROUP_Z" 50 "PROG_001" 0 Samples.cust1),
    (mkRegistration "PROG_001" 1 Samples.cust1).
  repeat split; try (left; reflexivity).
  intros c Hin. cbn in Hin.
  destruct Hin as [<-|[<-|[<-|[]]]]; cbn; discriminate.
Defined.

Lemma count_pass_map {A B : Type} (status : B -> Status) (f : A -> B) l :
  count_pass status (map f l) = count_pass (fun x => status (f x)) l.
Proof.
  induction l as [|x l IH]; [reflexivity|].
  cbn [map]. now rewrite !count_pass_cons, IH.
Qed.

Lemma save_groups_some cid groups gd pd :
  save_groups cid groups = Some (gd, pd) ->
  Z.of_nat (List.length gd) = Z.of_nat (List.length groups) /\
  Z.of_nat (List.length pd) =
  sum_Z (map (fun gr => Z.of_nat (List.length (program_results gr)))
             (values groups)) /\
  count_pass gd_group_status gd = count_pass group_status (values groups) /\
  count_pass pd_pass_status pd =
  sum_Z (map (fun gr => count_pass pass_status (values (program_results gr)))
             (values groups)).
Proof.
  revert gd pd. induction groups as [|[g gr] groups IH]; intros gd pd; simpl.
  - intros H. inversion H. now cbn.
  - destruct (group_data_row cid g gr) as [row|] eqn:E; [|discriminate].
    destruct (save_groups cid groups) as [[gd' pd']|]; [|discriminate].
    intros H. inversion H; subst. clear H.
    destruct (IH gd' pd' eq_refl) as (H1 & H2 & H3 & H4).
    unfold group_data_row in E.
    destruct (passed_programs gr); [|discriminate].
    destruct (required_programs gr); [|discriminate].
    inversion E; subst. clear E.
    unfold sum_Z in *. cbn [map fold_right values snd].
    rewrite length_app, length_map, count_pass_app, !count_pass_cons.
    cbn [gd_group_status List.length]. unfold items.
    rewrite count_pass_map. cbn [program_data_row pd_pass_status].
    unfold values at 3. rewrite count_pass_map.
    fold (values groups). repeat split; lia.
Qed.

(** X15.  The three saved tables agree.  When the rows are prepared
    without error, there is one customer row per entry of the results, in
    the same order; the number of group rows is the sum of the
    [total_groups] columns, the number of program rows the sum of the
    [total_programs] columns, and the PASS rows of the group and program
    tables add up to the [passed_groups] and [passed_programs] columns. *)
Theorem saved_tables_are_consistent
    (all_results : dict CustomerResult)
    (customer_data : list CustomerDataRow) (group_data : list GroupDataRow)
    (program_data : list ProgramDataRow) :
  save_results_to_database all_results
  = Some (customer_data, group_data, program_data) ->
  map cd_customer_id customer_data = keys all_results /\
  Z.of_nat (List.length group_data)
  = sum_Z (map cd_total_groups customer_data) /\
  Z.of_nat (List.length program_data)
  = sum_Z (map cd_total_programs customer_data) /\
  count_pass gd_group_status group_data
  = sum_Z (map cd_passed_groups customer_data) /\
  count_pass pd_pass_status program_data
  = sum_Z (map cd_passed_programs customer_data).
Proof.
  revert customer_data group_data program_data.
  induction all_results as [|[cid result] rest IH]; intros cd gd pd; simpl.
  - intros H. inversion H. now cbn.
  - destruct (save_groups cid (items (group_results result)))
      as [[gd1 pd1]|] eqn:E; [|discriminate].
    destruct (save_results_to_database rest) as [[[cd' gd'] pd']|];
      [|discriminate].
    intros H. inversion H; subst. clear H.
    destruct (IH cd' gd' pd' eq_refl) as (H1 & H2 & H3 & H4 & H5).
    apply save_groups_some in E. destruct E as (E1 & E2 & E3 & E4).
    unfold items in *. unfold sum_Z in *.
    cbn [map fold_right customer_data_row cd_customer_id cd_total_groups
         cd_total_programs cd_passed_groups cd_passed_programs fst].
    rewrite !length_app, !count_pass_app.
    repeat split; try lia. now rewrite H1.
Qed.

Lemma saved_tables_are_consistent_witness :
  exists customer_data group_data program_data,
    save_results_to_database
      (process_audit_for_all_customers Samples.veto_audit Samples.conditions
         Samples.veto_registrations)
    = Some (customer_data, group_data, program_data) /\
    Z.of_nat (List.length program_data)
    = sum_Z (map cd_total_programs customer_data).
Proof.
  destruct (save_results_to_database
              (process_audit_for_all_customers Samples.veto_audit
                 Samples.conditions Samples.veto_registrations))
    as [[[cd gd] pd]|] eqn:E.
  - exists cd, gd, pd. split; [reflexivity|].
    now destruct (saved_tables_are_consistent _ _ _ _ E)
      as (_ & _ & H & _).
  - vm_compute in E. discriminate.
Defined.

Lemma save_groups_rows cid groups gd pd :
  save_groups cid groups = Some (gd, pd) ->
  (forall row, In row gd ->
     exists g gr passed required,
       In (g, gr) groups /\
       passed_programs gr = Some passed /\
       required_programs gr = Some required /\
       row = mkGroupDataRow cid g (group_status gr) passed required) /\
  (forall row, In row pd ->
     exists g gr p pr,
       In (g, gr) groups /\ In (p, pr) (items (program_results gr)) /\
       row = program_data_row cid g p pr).
Proof.
  revert gd pd. induction groups as [|[g gr] groups IH]; intros gd pd; simpl.
  - intros H. inversion H. split; intros row [].
  - destruct (group_data_row cid g gr) as [grow|] eqn:E; [|discriminate].
    destruct (save_groups cid groups) as [[gd' pd']|]; [|discriminate].
    intros H. inversion H; subst. clear H.
    destruct (IH gd' pd' eq_refl) as [IHg IHp]. split.
    + intros row [<-|Hin].
      * unfold group_data_row in E.
        destruct (passed_programs gr) as [passed|] eqn:E1; [|discriminate].
        destruct (required_programs gr) as [required|] eqn:E2;
          [|discriminate].
        inversion E. exists g, gr, passed, required.
        repeat split; try assumption. now left.
      * destruct (IHg row Hin) as (g' & gr' & pa & re & Hin' & H').
        exists g', gr', pa, re. split; [now right | assumption].
    + intros row Hin. apply in_app_iff in Hin. destruct Hin as [Hin|Hin].
      * apply in_map_iff in Hin. destruct Hin as ([p pr] & <- & Hin).
        exists g, gr, p, pr. repeat split; [now left | assumption].
      * destruct (IHp row Hin) as (g' & gr' & p & pr & Hin' & H').
        exists g', gr', p, pr. split; [now right | assumption].
Qed.

Lemma save_results_rows all_results cd gd pd :
  save_results_to_database all_results = Some (cd, gd, pd) ->
  (forall row, In row gd ->
     exists cid result g gr passed required,
       In (cid, result) all_results /\
       In (g, gr) (items (group_results result)) /\
       passed_programs gr = Some passed /\
       required_programs gr = Some required /\
       row = mkGroupDataRow cid g (group_status gr) passed required) /\
  (forall row, In row pd ->
     exists cid result g gr p pr,
       In (cid, result) all_results /\
       In (g, gr) (items (group_results result)) /\
       In (p, pr) (items (program_results gr)) /\
       row = program_data_row cid g p pr).
Proof.
  revert cd gd pd.
  induction all_results as [|[cid result] rest IH]; intros cd gd pd; simpl.
  - intros H. inversion H. split; intros row [].
  - destruct (save_groups cid (items (group_results result)))
      as [[gd1 pd1]|] eqn:E; [|discriminate].
    destruct (save_results_to_database rest) as [[[cd' gd'] pd']|];
      [|discriminate].
    intros H. inversion H; subst. clear H.
    destruct (IH cd' gd' pd' eq_refl) as [IHg IHp].
    apply save_groups_rows in E. destruct E as [Eg Ep]. split.
    + intros row Hin. apply in_app_iff in Hin. destruct Hin as [Hin|Hin].
      * destruct (Eg row Hin) as (g & gr & pa & re & H1 & H2).
        exists cid, result, g, gr, pa, re. split; [now left | now split].
      * destruct (IHg row Hin) as (c & r & g & gr & pa & re & H1 & H2).
        exists c, r, g, gr, pa, re. split; [now right | assumption].
    + intros row Hin. apply in_app_iff in Hin. destruct Hin as [Hin|Hin].
      * destruct (Ep row Hin) as (g & gr & p & pr & H1 & H2).
        exists cid, result, g, gr, p, pr. split; [now left | now split].
      * destruct (IHp row Hin) as (c & r & g & gr & p & pr & H1 & H2).
        exists c, r, g, gr, p, pr. split; [now right | assumption].
Qed.

Lemma batch_group_result audit_data condition_data registration_data
    cid result g gr :
  In (cid, result)
     (process_audit_for_all_customers audit_data condition_data
                                      registration_data) ->
  In (g, gr) (items (group_results result)) ->
  exists rows, gr = process_single_group g rows condition_data.
Proof.
  intros Hin Hg. unfold process_audit_for_all_customers in Hin.
  apply (groupby_in a_customer_id audit_data
           (fun cid rows =>
              process_single_customer cid rows condition_data
                                      registration_data)) in Hin.
  destruct Hin as [_ ->].
  match type of Hg with
  | In _ (items (group_results (process_single_customer _ ?ca _ _))) =>
      destruct (process_single_customer_cases cid ca condition_data
                  registration_data) as [(He & _)|(_ & Hres)]
  end.
  - rewrite He in Hg. destruct Hg.
  - rewrite Hres in Hg. cbn [group_results] in Hg. unfold items in Hg.
    apply customer_groups_loop_in in Hg. destruct Hg as [_ ->].
    now eexists.
Qed.

Lemma row_verdict_columns row group_conditions :
  let pr := program_result_of_row row group_conditions in
  let required := get_default (required_value pr) 0 in
  let shortfall := get_default (deficit pr) 0 in
  required =
  wrap64 (get_default (pr_condition_min_value pr) 0
          * get_default (registration_qty pr) 0) /\
  0 <= shortfall /\
  (reason pr = NORMAL_PROCESSING ->
   (pass_status pr = PASS <-> required <= audit_value pr) /\
   shortfall = Z.max 0 (wrap64 (required - audit_value pr)) /\
   (in_int64 (required - audit_value pr) ->
    (pass_status pr = PASS -> shortfall = 0) /\
    (pass_status pr = FAIL ->
     shortfall = required - audit_value pr /\ 0 < shortfall))) /\
  (reason pr <> NORMAL_PROCESSING -> required = 0 /\ shortfall = 0).
Proof.
  cbn zeta. unfold program_result_of_row.
  destruct (String.eqb (m_program_type row) fake_picture).
  - unfold handle_fake_picture_program.
    destruct (m_value row >? 0); cbn [required_value deficit reason
      pr_condition_min_value registration_qty get_default];
      (split; [reflexivity | split; [lia | split; [discriminate|]]]);
      intros _; split; reflexivity.
  - unfold handle_normal_program.
    destruct (filter _ group_conditions) as [|rule rest];
      cbn [required_value deficit reason pr_condition_min_value
           registration_qty get_default pass_status audit_value].
    + split; [reflexivity | split; [lia | split; [discriminate|]]].
      intros _. split; reflexivity.
    + split; [reflexivity | split; [lia | split]];
        [|intros H; now contradiction H].
      intros _. rewrite Z.geb_leb.
      set (required := wrap64 (condition_min_value rule * m_qty row)).
      split; [|split; [reflexivity|]].
      * destruct (required <=? m_value row) eqn:E;
          [apply Z.leb_le in E | apply Z.leb_gt in E]; split;
          try reflexivity; try discriminate; lia.
      * intros Hd. rewrite (wrap64_exact _ Hd).
        destruct (required <=? m_value row) eqn:E;
          [apply Z.leb_le in E | apply Z.leb_gt in E]; split;
          try discriminate; intros _; lia.
Qed.

(** X16.  Columns of the saved rows of a batch.  In every saved group row
    the status is PASS iff the passed count reaches the required count,
    and the passed count is not negative.  In every saved program row the
    required value is the 64-bit product of the rule minimum and the
    registered quantity (all three are 0 where the verdict has no such
    entry) and the deficit is not negative.  On a row of the threshold
    comparison the status is PASS iff the required value does not exceed
    the audit value and the deficit is the 64-bit difference
    [required_value - audit_value] cut off at 0: when that difference
    fits in a signed 64-bit integer, the deficit is 0 on PASS and the
    positive shortfall on FAIL.  On a row of any other reason the
    required value and the deficit are 0. *)
Theorem saved_rows_of_a_batch
    (audit_data : list AuditRow) (condition_data : list ConditionRow)
    (registration_data : list RegistrationRow)
    (customer_data : list CustomerDataRow) (group_data : list GroupDataRow)
    (program_data : list ProgramDataRow) :
  save_results_to_database
    (process_audit_for_all_customers audit_data condition_data
                                     registration_data)
  = Some (customer_data, group_data, program_data) ->
  (forall row, In row group_data ->
     (gd_group_status row = PASS <->
      gd_required_programs row <= gd_passed_programs row) /\
     0 <= gd_passed_programs row) /\
  (forall row, In row program_data ->
     pd_required_value row
     = wrap64 (pd_condition_min_value row * pd_registration_qty row) /\
     0 <= pd_deficit row /\
     (pd_reason row = NORMAL_PROCESSING ->
      (pd_pass_status row = PASS <->
       pd_required_value row <= pd_audit_value row) /\
      pd_deficit row
      = Z.max 0 (wrap64 (pd_required_value row - pd_audit_value row)) /\
      (in_int64 (pd_required_value row - pd_audit_value row) ->
       (pd_pass_status row = PASS -> pd_deficit row = 0) /\
       (pd_pass_status row = FAIL ->
        pd_deficit row = pd_required_value row - pd_audit_value row /\
        0 < pd_deficit row))) /\
     (pd_reason row <> NORMAL_PROCESSING ->
      pd_required_value row = 0 /\ pd_deficit row = 0)).
Proof.
  intros Hsave. apply save_results_rows in Hsave.
  destruct Hsave as [Hg Hp]. split.
  - intros row Hin.
    destruct (Hg row Hin)
      as (cid & result & g & gr & passed & required & Hr & Hgr & Hpa & Hre
          & ->).
    destruct (batch_group_result _ _ _ _ _ _ _ Hr Hgr) as [rows ->].
    cbn [gd_group_status gd_required_programs gd_passed_programs].
    destruct (filter (fun c => String.eqb (c_group c) g) condition_data)
      as [|first rest] eqn:E.
    + rewrite (process_single_group_no_conditions _ _ _ E) in Hpa.
      discriminate.
    + rewrite (process_single_group_with_conditions _ _ _ _ _ E) in Hpa, Hre
        |- *.
      cbn in Hpa, Hre. inversion Hpa. inversion Hre. subst.
      cbn [group_status]. rewrite group_loop_passed, Z.geb_leb.
      pose proof (count_pass_bounds pass_status
                    (map (fun row => program_result_of_row row (first :: rest))
                         rows)) as Hb.
      split; [|lia].
      destruct (_ <=? _) eqn:El;
        [apply Z.leb_le in El | apply Z.leb_gt in El]; split;
        try reflexivity; try discriminate; lia.
  - intros row Hin.
    destruct (Hp row Hin)
      as (cid & result & g & gr & p & pr & Hr & Hgr & Hpr & ->).
    destruct (batch_group_result _ _ _ _ _ _ _ Hr Hgr) as [rows ->].
    apply process_single_group_entry in Hpr.
    destruct Hpr as (mrow & _ & _ & ->).
    cbn [program_data_row pd_required_value pd_condition_min_value
         pd_registration_qty pd_deficit pd_pass_status pd_reason
         pd_audit_value].
    apply row_verdict_columns.
Qed.

Lemma saved_rows_of_a_batch_witness :
  gd_group_status (mkGroupDataRow Samples.cust1 "GROUP_A" PASS 1 1) = PASS <->
  gd_required_programs (mkGroupDataRow Samples.cust1 "GROUP_A" PASS 1 1)
  <= gd_passed_programs (mkGroupDataRow Samples.cust1 "GROUP_A" PASS 1 1).
Proof.
  destruct (saved_rows_of_a_batch Samples.veto_audit Samples.conditions
              Samples.veto_registrations
              _ _ _ eq_refl) as [Hg _].
  apply (Hg (mkGroupDataRow Samples.cust1 "GROUP_A" PASS 1 1)).
  left. reflexivity.
Defined.

(** ** Analysis of the results *)

Lemma fold_count_fake_picture l : forall acc,
  fold_left count_fake_picture l acc =
  (fst acc + Z.of_nat (List.length (filter failed_sentinel l)),
   snd acc + Z.of_nat (List.length (filter passed_sentinel l))).
Proof.
  induction l as [|pr l IH]; intros [f p]; cbn [fold_left filter].
  - cbn. f_equal; lia.
  - rewrite IH. unfold count_fake_picture, failed_sentinel, passed_sentinel.
    destruct (String.eqb (program_type pr) fake_picture);
      destruct (pass_status pr); cbn [andb Status_eqb fst snd List.length];
      f_equal; lia.
Qed.

Lemma fold_count_groups (grs : list GroupResult) : forall acc,
  fold_left (fun acc gr =>
               fold_left count_fake_picture (values (program_results gr)) acc)
            grs acc =
  (fst acc
   + Z.of_nat (List.length
                 (filter failed_sentinel
                    (flat_map (fun gr => values (program_results gr)) grs))),
   snd acc
   + Z.of_nat (List.length
                 (filter passed_sentinel
                    (flat_map (fun gr => values (program_results gr)) grs)))).
Proof.
  induction grs as [|gr grs IH]; intros [f p]; cbn [fold_left flat_map].
  - cbn. f_equal; lia.
  - rewrite fold_count_fake_picture, IH. cbn [fst snd].
    rewrite !filter_app, !length_app. f_equal; lia.
Qed.

Lemma fake_picture_counts_spec (all_results : dict CustomerResult) :
  fake_picture_counts all_results =
  (Z.of_nat (List.length
               (filter failed_sentinel
                  (flat_map program_verdicts (values all_results)))),
   Z.of_nat (List.length
               (filter passed_sentinel
                  (flat_map program_verdicts (values all_results))))).
Proof.
  unfold fake_picture_counts.
  assert (H : forall (rs : list CustomerResult) acc,
             fold_left
               (fun acc result =>
                  fold_left
                    (fun acc gr =>
                       fold_left count_fake_picture
                                 (values (program_results gr)) acc)
                    (values (group_results result)) acc) rs acc =
             (fst acc
              + Z.of_nat (List.length
                            (filter failed_sentinel
                               (flat_map program_verdicts rs))),
              snd acc
              + Z.of_nat (List.length
                            (filter passed_sentinel
                               (flat_map program_verdicts rs))))).
  { induction rs as [|r rs IH]; intros [f p]; cbn [fold_left flat_map].
    - cbn. f_equal; lia.
    - rewrite fold_count_groups, IH. cbn [fst snd].
      fold (program_verdicts r).
      rewrite !filter_app, !length_app. f_equal; lia. }
  rewrite H. cbn [fst snd]. f_equal; lia.
Qed.

Lemma fake_picture_detected_verdicts (result : CustomerResult) :
  fake_picture_detected result
  = existsb failed_sentinel (program_verdicts result).
Proof.
  unfold fake_picture_detected, program_verdicts.
  induction (values (group_results result)) as [|gr grs IH];
    [reflexivity|].
  cbn [existsb flat_map]. rewrite existsb_app, IH. reflexivity.
Qed.

Lemma filter_length_zero {A : Type} (f : A -> bool) l :
  Z.of_nat (List.length (filter f l)) = 0 <-> existsb f l = false.
Proof.
  induction l as [|x l IH]; cbn [filter existsb].
  - split; reflexivity.
  - destruct (f x); cbn [List.length orb]; [split; [lia | discriminate]|].
    exact IH.
Qed.

Lemma group_keys_nil {A : Type} (key : A -> string) rows :
  group_keys key rows = [] <-> rows = [].
Proof.
  split; [|intros ->; reflexivity].
  destruct rows as [|r rows]; [reflexivity|]. intros H.
  assert (Hin : In (key r) (group_keys key (r :: rows))).
  { apply in_group_keys. exists r. split; [now left | reflexivity]. }
  rewrite H in Hin. destruct Hin.
Qed.

(** X17.  Summary of an analysis.  [analyze_results] raises on an empty
    result set (division by zero in the success rate) and only then.
    Otherwise the total is the number of customers and is at least 1, the
    passed and failed customers are not negative and add up to the total,
    all customers passed iff every overall status is PASS, and the two
    sentinel counters are the numbers of stored sentinel verdicts with
    status FAIL and with status PASS over all customers and groups. *)
Theorem analyze_results_summary (all_results : dict CustomerResult) :
  (analyze_results all_results = None <-> all_results = empty) /\
  (forall a, analyze_results all_results = Some a ->
     total_customers a = Z.of_nat (List.length all_results) /\
     1 <= total_customers a /\
     0 <= passed_customers a /\ 0 <= failed_customers a /\
     passed_customers a + failed_customers a = total_customers a /\
     (failed_customers a = 0 <->
      forall cid result, In (cid, result) (items all_results) ->
                         overall_status result = PASS) /\
     fake_picture_fails a =
     Z.of_nat (List.length
                 (filter failed_sentinel
                    (flat_map program_verdicts (values all_results)))) /\
     fake_picture_passes a =
     Z.of_nat (List.length
                 (filter passed_sentinel
                    (flat_map program_verdicts (values all_results))))).
Proof.
  unfold analyze_results. split.
  - destruct all_results as [|x d]; cbn [List.length].
    + split; reflexivity.
    + destruct (Z.of_nat (S (List.length d)) =? 0) eqn:E.
      * apply Z.eqb_eq in E. lia.
      * split; discriminate.
  - intros a. destruct (Z.of_nat (List.length all_results) =? 0) eqn:E;
      [discriminate|].
    apply Z.eqb_neq in E. intros H. inversion H. subst a. clear H.
    cbn [total_customers passed_customers failed_customers
         fake_picture_fails fake_picture_passes].
    rewrite fake_picture_counts_spec. cbn [fst snd].
    pose proof (count_pass_bounds overall_status (values all_results)) as Hb.
    rewrite (length_map snd all_results : List.length (values all_results) = _)
      in Hb.
    repeat split; try lia.
    + intros H cid result Hin.
      assert (Hall : count_pass overall_status (values all_results)
                     = Z.of_nat (List.length (values all_results))).
      { rewrite (length_map snd all_results
                  : List.length (values all_results) = _). lia. }
      rewrite count_pass_all in Hall. apply Hall.
      unfold values. apply in_map_iff. now exists (cid, result).
    + intros H.
      assert (Hall : count_pass overall_status (values all_results)
                     = Z.of_nat (List.length (values all_results))).
      { apply count_pass_all. intros r Hr. unfold values in Hr.
        apply in_map_iff in Hr. destruct Hr as ([cid r'] & <- & Hr).
        now apply (H cid r'). }
      rewrite (length_map snd all_results
                 : List.length (values all_results) = _) in Hall. lia.
Qed.

Lemma analyze_results_summary_witness :
  Z.of_nat (List.length (@empty CustomerResult)) = 0 /\
  analyze_results (@empty CustomerResult) = None.
Proof.
  split; [reflexivity|].
  apply (proj2 (proj1 (analyze_results_summary empty))). reflexivity.
Defined.

(** X18.  The analysis of a batch run raises iff the audit table is
    empty; with at least one audit row it returns a summary whose total
    is at least 1. *)
Theorem analysis_of_a_batch_needs_audit_rows
    (audit_data : list AuditRow) (condition_data : list ConditionRow)
    (registration_data : list RegistrationRow) :
  (analyze_results
     (process_audit_for_all_customers audit_data condition_data
                                      registration_data) = None
   <-> audit_data = []) /\
  (audit_data <> [] ->
   exists a,
     analyze_results
       (process_audit_for_all_customers audit_data condition_data
                                        registration_data) = Some a /\
     1 <= total_customers a).
Proof.
  assert (Hnil : process_audit_for_all_customers audit_data condition_data
                   registration_data = [] <-> audit_data = []).
  { rewrite <- (group_keys_nil a_customer_id audit_data).
    rewrite <- batch_keys with (condition_data := condition_data)
                               (registration_data := registration_data).
    unfold keys.
    destruct (process_audit_for_all_customers audit_data condition_data
                registration_data); cbn; split; congruence. }
  assert (Hnone : analyze_results
                    (process_audit_for_all_customers audit_data condition_data
                       registration_data) = None <-> audit_data = []).
  { rewrite <- Hnil. unfold analyze_results.
    destruct (process_audit_for_all_customers audit_data condition_data
                registration_data) as [|x d]; cbn [List.length].
    - split; reflexivity.
    - destruct (Z.of_nat (S (List.length d)) =? 0) eqn:E.
      + apply Z.eqb_eq in E. lia.
      + split; discriminate. }
  split; [exact Hnone|].
  intros Hne.
  destruct (analyze_results
              (process_audit_for_all_customers audit_data condition_data
                 registration_data)) as [a|] eqn:E.
  - exists a. split; [reflexivity|].
    unfold analyze_results in E.
    destruct (_ =? 0) eqn:E0 in E; [discriminate|].
    apply Z.eqb_neq in E0. inversion E. cbn [total_customers]. lia.
  - exfalso. apply Hne. now apply Hnone.
Qed.

Lemma analysis_of_a_batch_needs_audit_rows_witness :
  exists a,
    analyze_results
      (process_audit_for_all_customers Samples.lonely_audit
         Samples.conditions Samples.lonely_registrations) = Some a /\
    1 <= total_customers a.
Proof.
  apply (proj2 (analysis_of_a_batch_needs_audit_rows Samples.lonely_audit
                  Samples.conditions Samples.lonely_registrations)).
  discriminate.
Defined.

(** X19.  Sentinel counter and exception flags.  The counter
    [fake_picture_fails] of the analysis counts failed sentinel verdicts,
    not customers: it is at least the number of customers whose exception
    flag is set, and it is 0 iff no customer row carries the flag. *)
Theorem fake_picture_fails_and_flags
    (all_results : dict CustomerResult) (a : Analysis) :
  analyze_results all_results = Some a ->
  Z.of_nat (List.length (filter fake_picture_detected (values all_results)))
  <= fake_picture_fails a /\
  (fake_picture_fails a = 0 <->
   forall cid result,
     In (cid, result) (items all_results) ->
     cd_fake_picture_detected (customer_data_row cid result) = 0).
Proof.
  unfold analyze_results.
  destruct (_ =? 0); [discriminate|]. intros H. inversion H. clear H.
  cbn [fake_picture_fails]. rewrite fake_picture_counts_spec. cbn [fst].
  unfold items, values. clear.
  induction all_results as [|[cid r] d IH]; cbn [map filter flat_map].
  - cbn. split; [lia|]. split; [intros _ c r [] | reflexivity].
  - rewrite filter_app, length_app, Nat2Z.inj_add.
    destruct IH as [IHle IHiff].
    pose proof (filter_length_zero failed_sentinel (program_verdicts r))
      as Hz.
    rewrite <- fake_picture_detected_verdicts in Hz. cbn [snd].
    assert (Hpos : 0 <= Z.of_nat (List.length
                                    (filter failed_sentinel
                                       (program_verdicts r)))) by lia.
    split.
    + destruct (fake_picture_detected r) eqn:Ef; cbn [List.length]; [|lia].
      assert (Z.of_nat (List.length (filter failed_sentinel
                                       (program_verdicts r))) <> 0).
      { intros H0. apply Hz in H0. discriminate. }
      lia.
    + split.
      * intros H0 c r' [Heq|Hin].
        -- inversion Heq; subst.
           cbn [customer_data_row cd_fake_picture_detected].
           rewrite (proj1 Hz); [reflexivity | lia].
        -- apply IHiff; [lia | assumption].
      * intros H.
        assert (H1 : fake_picture_detected r = false).
        { specialize (H cid r (or_introl eq_refl)).
          cbn [customer_data_row cd_fake_picture_detected] in H.
          destruct (fake_picture_detected r); [discriminate | reflexivity]. }
        apply Hz in H1.
        assert (H2 : Z.of_nat
                       (List.length
                          (filter failed_sentinel
                             (flat_map program_verdicts (map snd d)))) = 0).
        { apply IHiff. intros c r' Hin. apply H. now right. }
        lia.
Qed.

Lemma fake_picture_fails_and_flags_witness :
  exists a,
    analyze_results
      (process_audit_for_all_customers Samples.veto_audit Samples.conditions
         Samples.veto_registrations) = Some a /\
    1 <= fake_picture_fails a.
Proof.
  eexists. split; [reflexivity|].
  destruct (fake_picture_fails_and_flags
              (process_audit_for_all_customers Samples.veto_audit
                 Samples.conditions Samples.veto_registrations)
              _ eq_refl) as [Hle _].
  exact Hle.
Defined.

(** ** The flag column of the saved customer rows *)

Lemma save_results_customer_rows all_results cd gd pd :
  save_results_to_database all_results = Some (cd, gd, pd) ->
  cd = map (fun e => customer_data_row (fst e) (snd e)) (items all_results).
Proof.
  revert cd gd pd.
  induction all_results as [|[cid result] rest IH]; intros cd gd pd; simpl.
  - intros H. now inversion H.
  - destruct (save_groups cid (items (group_results result)))
      as [[gd1 pd1]|]; [|discriminate].
    destruct (save_results_to_database rest) as [[[cd' gd'] pd']|];
      [|discriminate].
    intros H. inversion H; subst. f_equal. now apply (IH cd' gd' pd').
Qed.

(** X20.  When the rows are prepared without error, the customer rows are
    the statistics rows of the result entries, in order; so the
    [fake_picture_detected] column written for a customer is 1 exactly
    when that customer's result holds, in some group, a stored verdict of
    the sentinel program with status FAIL. *)
Theorem saved_customer_rows_carry_the_flag
    (all_results : dict CustomerResult)
    (customer_data : list CustomerDataRow) (group_data : list GroupDataRow)
    (program_data : list ProgramDataRow) :
  save_results_to_database all_results
  = Some (customer_data, group_data, program_data) ->
  customer_data
  = map (fun e => customer_data_row (fst e) (snd e)) (items all_results) /\
  (forall row, In row customer_data ->
     exists cid result,
       In (cid, result) (items all_results) /\
       row = customer_data_row cid result /\
       (cd_fake_picture_detected row = 1 <->
        exists g gr p pr,
          In (g, gr) (items (group_results result)) /\
          In (p, pr) (items (program_results gr)) /\
          program_type pr = fake_picture /\ pass_status pr = FAIL)).
Proof.
  intros Hsave. apply save_results_customer_rows in Hsave.
  split; [exact Hsave|]. intros row Hin. rewrite Hsave in Hin.
  apply in_map_iff in Hin. destruct Hin as ([cid result] & <- & Hin).
  exists cid, result. split; [exact Hin | split; [reflexivity|]].
  cbn [fst snd customer_data_row cd_fake_picture_detected].
  rewrite <- fake_picture_detected_iff.
  destruct (fake_picture_detected result); split; intros H;
    try reflexivity; discriminate.
Qed.

Lemma saved_customer_rows_carry_the_flag_witness :
  exists customer_data group_data program_data,
    save_results_to_database
      (process_audit_for_all_customers Samples.veto_audit Samples.conditions
         Samples.veto_registrations)
    = Some (customer_data, group_data, program_data) /\
    map cd_fake_picture_detected customer_data = [1].
Proof.
  destruct (save_results_to_database
              (process_audit_for_all_customers Samples.veto_audit
                 Samples.conditions Samples.veto_registrations))
    as [[[cd gd] pd]|] eqn:E; [|vm_compute in E; discriminate].
  exists cd, gd, pd. split; [reflexivity|].
  rewrite (proj1 (saved_customer_rows_carry_the_flag _ _ _ _ E)).
  reflexivity.
Defined.
